(** * Agent Adam: command interpretation and channel formatting

    A shallow embedding of the Motoko modules [CommandProcessor]
    (src/AgentAdam/CommandProcessor.mo), [Types] (src/AgentAdam/Types.mo)
    and of the response formatters of [GHLIntegration], of the actor
    [AgentAdam] and of the command history of the front end's demo
    service, followed by the properties of the interpretation pipeline,
    of the formatters, of the actor's store and of the demo history.

    Modelling choices.
    - [Text] is a [string] over 8-bit characters; [Text.toLowercase]
      sends A-Z to a-z and leaves every other character as it is, which
      is what the base library does on ASCII text.  The results
      quantified over all instructions never look into the lower-casing:
      they go through the keyword sequence and the lower-cased
      instruction as wholes.
    - [Nat] is [nat], [Int] is [Z].
    - [Float] is modelled by the exact rationals [Q]: the constants 0.1,
      0.2, 0.6, 0.7, 0.8, 0.9 and 1.0 and the operations are the exact
      ones, rounding is not modelled.
    - A [Buffer] filled by a loop and turned into an array is the list of
      the added elements, in the order of the [add] calls. *)

From Stdlib Require Import List Bool Arith ZArith QArith Lia Lqa.
From Stdlib Require Import Ascii String DecimalString Permutation.
Import ListNotations.

Local Close Scope Q_scope.
Local Open Scope bool_scope.
Local Open Scope list_scope.
Local Open Scope string_scope.

(** ** The parts of the base library the program uses *)

Module Text.

Definition t := string.

Definition size (s : t) : nat := String.length s.

Definition equal (a b : t) : bool := String.eqb a b.

Definition lowerChar (c : ascii) : ascii :=
  if (Ascii.leb "A" c && Ascii.leb c "Z")%bool
  then ascii_of_nat (nat_of_ascii c + 32)
  else c.

Fixpoint toLowercase (s : t) : t :=
  match s with
  | EmptyString => EmptyString
  | String c s' => String (lowerChar c) (toLowercase s')
  end.

(** [fields sep s]: the pieces of [s] between the occurrences of [sep];
    always at least one piece. *)
Fixpoint fields (sep : ascii) (s : t) : list t :=
  match s with
  | EmptyString => [EmptyString]
  | String c s' =>
      if Ascii.eqb c sep then EmptyString :: fields sep s'
      else match fields sep s' with
           | f :: fs => String c f :: fs
           | [] => [String c EmptyString]
           end
  end.

(** [Text.split(t, #char sep)]: two fields are separated by exactly one
    match, so leading, trailing and doubled separators give empty
    fields; the empty text has no field at all. *)
Definition split (s : t) (sep : ascii) : list t :=
  match s with
  | EmptyString => []
  | _ => fields sep s
  end.

Fixpoint trimStart (s : t) (c : ascii) : t :=
  match s with
  | EmptyString => EmptyString
  | String d s' => if Ascii.eqb d c then trimStart s' c else s
  end.

Fixpoint rev (s : t) : t :=
  match s with
  | EmptyString => EmptyString
  | String c s' => rev s' ++ String c EmptyString
  end.

Definition trimEnd (s : t) (c : ascii) : t := rev (trimStart (rev s) c).

(** [Text.trim(t, #char c)] removes the leading and the trailing [c]s. *)
Definition trim (s : t) (c : ascii) : t := trimEnd (trimStart s c) c.

(** [Text.contains(t, #text p)]: [p] occurs in [t] as a substring. *)
Fixpoint contains (s p : t) : bool :=
  String.prefix p s
  || match s with
     | EmptyString => false
     | String _ s' => contains s' p
     end.

(** [Text.join(sep, ts)]. *)
Definition join (sep : t) (ts : list t) : t := String.concat sep ts.

End Text.

Module Array.

(** [Array.find(xs, p) != null] *)
Definition found {A} (xs : list A) (p : A -> bool) : bool :=
  match List.find p xs with
  | Some _ => true
  | None => false
  end.

End Array.

Module Nat'.

(** [Nat.toText]: the decimal numeral. *)
Definition toText (n : nat) : Text.t := NilEmpty.string_of_uint (Nat.to_uint n).

End Nat'.

Module Float.

Definition t := Q.

Definition fromInt (z : Z) : t := inject_Z z.

(** [a > b] *)
Definition gt (a b : t) : bool := negb (Qle_bool a b).

End Float.

Module Int'.

(** [Int.toText]: the decimal numeral, with a minus sign below zero. *)
Definition toText (z : Z) : Text.t := NilEmpty.string_of_int (Z.to_int z).

End Int'.

Module Result.

(** [Result.Result<Ok, Err>] *)
Inductive t (Ok Err : Type) :=
| ok (value : Ok)
| err (error : Err).

Arguments ok {Ok Err} value.
Arguments err {Ok Err} error.

End Result.

(** [HashMap.HashMap<Text, V>] with [Text.equal] on the keys: a finite
    map, kept as the list of its entries, one per key.  [entries] lists
    them in an order the program cannot rely on; the results below do not
    depend on it. *)
Module HashMap.

Definition t (V : Type) := list (Text.t * V).

Definition empty {V} : t V := [].

Definition delete {V} (m : t V) (k : Text.t) : t V :=
  List.filter (fun kv => negb (Text.equal (fst kv) k)) m.

(** [put] replaces the entry of a key that is already there. *)
Definition put {V} (m : t V) (k : Text.t) (v : V) : t V := (k, v) :: delete m k.

Definition get {V} (m : t V) (k : Text.t) : option V :=
  match List.find (fun kv => Text.equal (fst kv) k) m with
  | Some kv => Some (snd kv)
  | None => None
  end.

Definition size {V} (m : t V) : nat := List.length m.

Definition entries {V} (m : t V) : list (Text.t * V) := m.

(** [HashMap.fromIter]: [put] of every pair, in the order of the iterator. *)
Definition fromIter {V} (pairs : list (Text.t * V)) : t V :=
  List.fold_left (fun m kv => put m (fst kv) (snd kv)) pairs empty.

End HashMap.

(** ** Types.mo *)

Module Types.

Record CommandContext := {
  locationId : Text.t;
  sourceMetadata : option Text.t;
  priority : nat;
  retryCount : nat
}.

Inductive ExecutionStatus :=
| Pending
| Processing
| Completed
| Failed (reason : Text.t)
| PartialSuccess (warnings : list Text.t).

Record ExecutedAction := {
  actionType : Text.t;
  description : Text.t;
  result : Text.t;
  timestamp : Z
}.

Record ExecutionResult := {
  commandId : Text.t;
  status : ExecutionStatus;
  actions : list ExecutedAction;
  insights : list Text.t;
  nextSteps : list Text.t;
  duration : nat
}.

(** The field [actions] of the source record is [voiceActions] here,
    [actions] being the projection of [ExecutionResult]. *)
Record VoiceResponse := {
  spokenText : Text.t;
  voiceActions : list Text.t;
  shouldEndCall : bool;
  transferNumber : option Text.t
}.

Record ChatResponse := {
  message : Text.t;
  quickReplies : list Text.t;
  attachments : list Text.t;
  shouldClose : bool
}.

Inductive Intent :=
| Create (objectType : Text.t)
| Update (objectType identifier : Text.t)
| Delete (objectType identifier : Text.t)
| Query (objectType : Text.t) (filters : list Text.t)
| Automation (triggerType : Text.t) (conditions : list Text.t)
| Unknown.

(** The field [confidence] of the source record is [entityConfidence]
    here, [confidence] being the projection of [CommandInterpretation]. *)
Record Entity := {
  entityType : Text.t;
  value : Text.t;
  entityConfidence : Float.t
}.

Record CommandInterpretation := {
  intent : Intent;
  entities : list Entity;
  confidence : Float.t;
  requiresApproval : bool
}.

Inductive CommandSource :=
| GHLWebhook (webhookId eventType : Text.t)
| GHLVoiceAgent (sessionId callerId : Text.t)
| GHLChatAgent (conversationId contactId : Text.t)
| AdminInterface (userId locationId : Text.t).

(** The field [timestamp] of the source record is [commandTimestamp]
    here, [timestamp] being the projection of [ExecutedAction]. *)
Record Command := {
  id : Text.t;
  source : CommandSource;
  instruction : Text.t;
  context : CommandContext;
  commandTimestamp : Z
}.

Record AdminResponse := {
  summary : Text.t;
  details : ExecutionResult;
  recommendedActions : list Text.t;
  alerts : list Text.t
}.

(** The fields [userId] and [locationId] of the source record carry the
    prefix [pref] here. *)
Record UserPreference := {
  prefUserId : Text.t;
  prefLocationId : Text.t;
  preferences : list (Text.t * Text.t);
  lastUpdated : Z
}.

End Types.

(** ** CommandProcessor.mo *)

Module CommandProcessor.
Import Types.

Definition stopWords : list Text.t := [
  "the"; "a"; "an"; "and"; "or"; "but"; "in"; "on"; "at"; "to"; "for";
  "of"; "with"; "by"; "from"; "up"; "about"; "into"; "through"; "during";
  "before"; "after"; "above"; "below"; "between"; "among"; "is"; "are";
  "was"; "were"; "be"; "been"; "being"; "have"; "has"; "had"; "do"; "does";
  "did"; "will"; "would"; "could"; "should"; "may"; "might"; "must"; "can"
].

Definition ghlEntities : list Text.t := [
  "contact"; "lead"; "opportunity"; "pipeline"; "workflow"; "campaign";
  "appointment"; "calendar"; "form"; "funnel"; "website"; "automation";
  "tag"; "trigger"; "action"; "email"; "sms"; "call"; "task"; "note";
  "invoice"; "payment"; "subscription"; "location"; "user"; "agency"
].

Definition createKeywords : list Text.t :=
  ["create"; "build"; "make"; "add"; "new"; "generate"; "setup"; "start"].
Definition updateKeywords : list Text.t :=
  ["update"; "modify"; "change"; "edit"; "revise"; "alter"; "adjust"].
Definition deleteKeywords : list Text.t :=
  ["delete"; "remove"; "cancel"; "stop"; "end"; "terminate"; "clear"].
Definition queryKeywords : list Text.t :=
  ["show"; "get"; "list"; "find"; "search"; "view"; "display"; "check"].
Definition automationKeywords : list Text.t :=
  ["automate"; "trigger"; "activate"; "schedule"; "set"; "configure"].

Definition isStopWord (word : Text.t) : bool :=
  Array.found stopWords (fun stopWord => Text.equal stopWord word).

Definition extractKeywords (instruction : Text.t) : list Text.t :=
  let words := Text.split (Text.toLowercase instruction) " "%char in
  List.filter
    (fun cleanWord => (2 <? Text.size cleanWord)%nat && negb (isStopWord cleanWord))
    (List.map (fun word => Text.trim word " "%char) words).

Definition hasAnyKeyword (words keywords : list Text.t) : bool :=
  Array.found words (fun word =>
    Array.found keywords (fun keyword => Text.equal keyword word)).

Definition findGHLEntity (words : list Text.t) : Text.t :=
  match List.find (fun word =>
          Array.found ghlEntities (fun entity => Text.equal entity word)) words with
  | Some entity => entity
  | None => "unknown"
  end.

(** The text made of the double-quote character alone (code 34). *)
Definition doubleQuote : Text.t := String (ascii_of_nat 34) EmptyString.

Definition extractIdentifier (instruction : Text.t) : Text.t :=
  if Text.contains instruction doubleQuote then "quoted_identifier"
  else if Text.contains instruction "id:" then "extracted_id"
  else "auto_detected".

Definition filterWords : list Text.t :=
  ["today"; "yesterday"; "week"; "month"; "active"; "inactive"; "new"; "old"].

Definition extractFilters (words : list Text.t) : list Text.t :=
  List.filter
    (fun word => Array.found filterWords (fun filter => Text.equal filter word))
    words.

Definition triggerTypes : list Text.t :=
  ["email"; "form"; "webhook"; "schedule"; "tag"; "status"].

Definition findTriggerType (words : list Text.t) : Text.t :=
  match List.find (fun word =>
          Array.found triggerTypes (fun trigger => Text.equal trigger word)) words with
  | Some trigger => trigger
  | None => "manual"
  end.

(** Four checks in a row, each adding its tag to the buffer. *)
Definition extractConditions (instruction : Text.t) : list Text.t :=
  ((if Text.contains instruction "when" then ["conditional"] else [])
   ++ (if Text.contains instruction "if" then ["conditional"] else [])
   ++ (if Text.contains instruction "after" then ["temporal"] else [])
   ++ (if Text.contains instruction "before" then ["temporal"] else []))%list.

Definition detectIntent (words : list Text.t) (instruction : Text.t) : Intent :=
  let lowerInstruction := Text.toLowercase instruction in
  if hasAnyKeyword words createKeywords then
    Create (findGHLEntity words)
  else if hasAnyKeyword words updateKeywords then
    Update (findGHLEntity words) (extractIdentifier lowerInstruction)
  else if hasAnyKeyword words deleteKeywords then
    Delete (findGHLEntity words) (extractIdentifier lowerInstruction)
  else if hasAnyKeyword words queryKeywords then
    Query (findGHLEntity words) (extractFilters words)
  else if hasAnyKeyword words automationKeywords then
    Automation (findTriggerType words) (extractConditions lowerInstruction)
  else Unknown.

Definition timeWords : list Text.t :=
  ["today"; "tomorrow"; "yesterday"; "week"; "month"; "year"].

Definition ghlObject (word : Text.t) : Entity :=
  {| entityType := "ghl_object"; value := word; entityConfidence := 0.9%Q |}.
Definition timeReference (word : Text.t) : Entity :=
  {| entityType := "time_reference"; value := word; entityConfidence := 0.8%Q |}.
Definition number (word : Text.t) : Entity :=
  {| entityType := "number"; value := word; entityConfidence := 0.7%Q |}.

Definition isGHLEntity (word : Text.t) : bool :=
  Array.found ghlEntities (fun entity => Text.equal entity word).
Definition isTimeWord (word : Text.t) : bool :=
  Array.found timeWords (fun timeWord => Text.equal timeWord word).
Definition isNumberWord (word : Text.t) : bool :=
  Text.equal word "1" || Text.equal word "2"
  || Text.equal word "5" || Text.equal word "10".

(** Three loops over [words], one after the other, adding to one buffer. *)
Definition extractEntities (words : list Text.t) (instruction : Text.t) : list Entity :=
  (List.map ghlObject (List.filter isGHLEntity words)
   ++ List.map timeReference (List.filter isTimeWord words)
   ++ List.map number (List.filter isNumberWord words))%list.

(** [Array.fold] is read as the left fold; the count it computes does not
    depend on the direction. *)
Definition calculateConfidence
    (intent : Intent) (entities : list Entity) (words : list Text.t) : Float.t :=
  let baseConfidence : Float.t :=
    match intent with
    | Unknown => 0.1
    | _ => 0.6
    end%Q in
  let entityBoost := (Float.fromInt (Z.of_nat (List.length entities)) * 0.1)%Q in
  let baseConfidence := (baseConfidence + entityBoost)%Q in
  let wordCount := Float.fromInt (Z.of_nat (List.length words)) in
  let baseConfidence :=
    if Float.gt wordCount 0.0%Q then
      let ghlEntityCount :=
        Float.fromInt
          (List.fold_left
             (fun acc entity =>
                if Text.equal (entityType entity) "ghl_object"
                then (acc + 1)%Z else acc)
             entities 0%Z) in
      let density := (ghlEntityCount / wordCount)%Q in
      (baseConfidence + density * 0.2)%Q
    else baseConfidence in
  if Float.gt baseConfidence 1.0%Q then 1.0%Q else baseConfidence.

Definition shouldRequireApproval (intent : Intent) (context : CommandContext) : bool :=
  match intent with
  | Delete _ _ => true
  | Create objectType =>
      Text.equal objectType "workflow" || Text.equal objectType "campaign"
      || Text.equal objectType "automation"
  | Automation _ _ => true
  | _ => (3 <=? priority context)%nat
  end.

Definition interpretCommand
    (instruction : Text.t) (context : CommandContext) : CommandInterpretation :=
  let words := extractKeywords instruction in
  let intent := detectIntent words instruction in
  let entities := extractEntities words instruction in
  let confidence := calculateConfidence intent entities words in
  let requiresApproval := shouldRequireApproval intent context in
  {| intent := intent;
     entities := entities;
     confidence := confidence;
     requiresApproval := requiresApproval |}.

End CommandProcessor.

(** ** The response formatters of GHLIntegration *)

Module GHLIntegration.
Import Types.

Record WorkflowDecision := {
  decision : Text.t;
  nextStep : Text.t;
  variables : list (Text.t * Text.t)
}.

Definition formatExecutionStatus (status : ExecutionStatus) : Text.t :=
  match status with
  | Pending => "pending"
  | Processing => "processing"
  | Completed => "completed"
  | Failed _ => "failed"
  | PartialSuccess _ => "partial_success"
  end.

Definition generateSpokenText (result : ExecutionResult) : Text.t :=
  match status result with
  | Completed =>
      match insights result with
      | first :: _ => first
      | [] => "I've completed your request successfully."
      end
  | Failed reason => "I'm sorry, but I encountered an issue: " ++ reason
  | Processing => "I'm currently processing your request. Please hold on."
  | _ => "Your request is being handled."
  end.

Definition shouldEndVoiceCall (result : ExecutionResult) : bool :=
  match status result with
  | Failed _ => true
  | _ => false
  end.

Definition getTransferNumber (result : ExecutionResult) : option Text.t :=
  if Array.found (actions result)
       (fun action => Text.equal (actionType action) "transfer_to_human")
  then Some "+1234567890"
  else None.

Definition generateVoiceActions (actions : list ExecutedAction) : list Text.t :=
  List.map
    (fun action =>
       if Text.equal (actionType action) "create_contact" then "contact_created"
       else if Text.equal (actionType action) "send_email" then "email_sent"
       else if Text.equal (actionType action) "schedule_appointment"
            then "appointment_scheduled"
       else if Text.equal (actionType action) "update_opportunity"
            then "opportunity_updated"
       else "action_completed")
    actions.

Definition formatVoiceResponse (result : ExecutionResult) : VoiceResponse :=
  let spokenText := generateSpokenText result in
  let actions := generateVoiceActions (actions result) in
  {| spokenText := spokenText;
     voiceActions := actions;
     shouldEndCall := shouldEndVoiceCall result;
     transferNumber := getTransferNumber result |}.

Definition generateWorkflowVariables (result : ExecutionResult)
  : list (Text.t * Text.t) :=
  [ ("execution_status", formatExecutionStatus (status result));
    ("command_id", commandId result);
    ("duration", Nat'.toText (duration result)) ].

Definition generateWorkflowDecision (result : ExecutionResult) : WorkflowDecision :=
  match status result with
  | Completed =>
      {| decision := "continue";
         nextStep := "next";
         variables := generateWorkflowVariables result |}
  | Failed _ =>
      {| decision := "stop"; nextStep := "error"; variables := [] |}
  | _ =>
      {| decision := "wait"; nextStep := "pending"; variables := [] |}
  end.

Record WebhookData := {
  webhookObjectType : Text.t;
  action : Text.t;
  data : Text.t
}.

Definition extractAction (payload : Text.t) : Text.t :=
  if Text.contains payload "created" then "created"
  else if Text.contains payload "updated" then "updated"
  else if Text.contains payload "deleted" then "deleted"
  else "unknown".

(** The field [objectType] of the source record is [webhookObjectType]. *)
Definition parseWebhookPayload (payload : Text.t) : Result.t WebhookData Text.t :=
  if Text.contains payload "contact" then
    Result.ok {| webhookObjectType := "contact";
                 action := extractAction payload;
                 data := payload |}
  else if Text.contains payload "opportunity" then
    Result.ok {| webhookObjectType := "opportunity";
                 action := extractAction payload;
                 data := payload |}
  else Result.err "Unknown webhook payload format".

Definition extractMentions (message : Text.t) : list Text.t :=
  ((if Text.contains message "@adam" then ["adam"] else [])
   ++ (if Text.contains message "@support" then ["support"] else []))%list.

Definition generateQuickReplies (nextSteps : list Text.t) : list Text.t :=
  let replies := List.filter (fun step => (Text.size step <? 30)%nat) nextSteps in
  if (List.length replies =? 0)%nat
  then (replies ++ ["Got it!"; "Tell me more"; "What's next?"])%list
  else replies.

Definition getSuccessTemplate (channel : Text.t) : Text.t :=
  if Text.equal channel "voice" then "Great! I've completed that task for you."
  else if Text.equal channel "chat"
       then "✅ Done! Your request has been processed successfully."
  else if Text.equal channel "admin"
       then "Task completed successfully. Check the details below."
  else "Request processed successfully.".

Definition getErrorTemplate (channel error : Text.t) : Text.t :=
  if Text.equal channel "voice" then "I'm sorry, I encountered an issue: " ++ error
  else if Text.equal channel "chat" then "❌ Oops! Something went wrong: " ++ error
  else if Text.equal channel "admin" then "Error: " ++ error
  else "Error: " ++ error.

(** The text made of the line feed alone (code 10). *)
Definition lineFeed : Text.t := String (ascii_of_nat 10) EmptyString.

Definition generateChatMessage (result : ExecutionResult) : Text.t :=
  match status result with
  | Completed =>
      "✅ " ++ getSuccessTemplate "chat" ++ lineFeed ++ lineFeed
      ++ Text.join lineFeed (insights result)
  | Failed reason => getErrorTemplate "chat" reason
  | _ => "⏳ Processing your request..."
  end.

Definition shouldCloseChat (result : ExecutionResult) : bool := false.

Definition formatChatResponse (result : ExecutionResult) : ChatResponse :=
  let message := generateChatMessage result in
  let quickReplies := generateQuickReplies (nextSteps result) in
  {| message := message;
     quickReplies := quickReplies;
     attachments := [];
     shouldClose := shouldCloseChat result |}.

End GHLIntegration.

(** ** The actor AgentAdam

    The actor's variables are the fields of [State]; a shared or query
    function is a function of the state that returns its result and the
    new state.  [Time.now()] is a parameter at each place it is read. *)

Module AgentAdam.
Import Types.

Record State := {
  commandHistory : list (Text.t * Command);
  executionResults : list (Text.t * ExecutionResult);
  userPreferences : list (Text.t * UserPreference);
  commands : HashMap.t Command;
  results : HashMap.t ExecutionResult;
  preferences : HashMap.t UserPreference
}.

(** The actor as it is installed. *)
Definition init : State :=
  {| commandHistory := [];
     executionResults := [];
     userPreferences := [];
     commands := HashMap.empty;
     results := HashMap.empty;
     preferences := HashMap.empty |}.

Definition preupgrade (s : State) : State :=
  {| commandHistory := HashMap.entries (commands s);
     executionResults := HashMap.entries (results s);
     userPreferences := HashMap.entries (preferences s);
     commands := commands s;
     results := results s;
     preferences := preferences s |}.

Definition postupgrade (s : State) : State :=
  {| commandHistory := [];
     executionResults := [];
     userPreferences := [];
     commands := HashMap.fromIter (commandHistory s);
     results := HashMap.fromIter (executionResults s);
     preferences := HashMap.fromIter (userPreferences s) |}.

Definition processCommand (cmd : Command) (s : State)
  : Result.t ExecutionResult Text.t * State :=
  let commands' := HashMap.put (commands s) (id cmd) cmd in
  let result :=
    {| commandId := id cmd;
       status := Completed;
       actions := [];
       insights := ["Command processed successfully"];
       nextSteps := ["Review execution result"];
       duration := 100 |} in
  let results' := HashMap.put (results s) (id cmd) result in
  (Result.ok result,
   {| commandHistory := commandHistory s;
      executionResults := executionResults s;
      userPreferences := userPreferences s;
      commands := commands';
      results := results';
      preferences := preferences s |}).

Definition handleWebhook
    (webhookId eventType payload locationId : Text.t) (now now' : Z) (s : State)
  : Result.t Text.t Text.t * State :=
  let commandId := webhookId ++ "_" ++ Int'.toText now in
  let command :=
    {| id := commandId;
       source := GHLWebhook webhookId eventType;
       instruction := payload;
       context := {| locationId := locationId;
                     sourceMetadata := Some eventType;
                     priority := 1;
                     retryCount := 0 |};
       commandTimestamp := now' |} in
  match processCommand command s with
  | (Result.ok _, s') => (Result.ok "Webhook processed successfully", s')
  | (Result.err msg, s') => (Result.err msg, s')
  end.

Definition processVoiceCommand
    (sessionId callerId transcript locationId : Text.t) (now now' : Z) (s : State)
  : Result.t VoiceResponse Text.t * State :=
  let commandId := sessionId ++ "_" ++ Int'.toText now in
  let command :=
    {| id := commandId;
       source := GHLVoiceAgent sessionId callerId;
       instruction := transcript;
       context := {| locationId := locationId;
                     sourceMetadata := Some callerId;
                     priority := 2;
                     retryCount := 0 |};
       commandTimestamp := now' |} in
  match processCommand command s with
  | (Result.ok result, s') =>
      (Result.ok {| spokenText := "I've processed your request successfully.";
                    voiceActions := ["confirm_action"];
                    shouldEndCall := false;
                    transferNumber := None |}, s')
  | (Result.err msg, s') => (Result.err msg, s')
  end.

Definition processChatCommand
    (conversationId contactId message locationId : Text.t) (now now' : Z) (s : State)
  : Result.t ChatResponse Text.t * State :=
  let commandId := conversationId ++ "_" ++ Int'.toText now in
  let command :=
    {| id := commandId;
       source := GHLChatAgent conversationId contactId;
       instruction := message;
       context := {| locationId := locationId;
                     sourceMetadata := Some contactId;
                     priority := 2;
                     retryCount := 0 |};
       commandTimestamp := now' |} in
  match processCommand command s with
  | (Result.ok result, s') =>
      (Result.ok {| Types.message := "I've processed your request. Here's what I found.";
                    quickReplies := ["Got it"; "Tell me more"; "What's next?"];
                    attachments := [];
                    shouldClose := false |}, s')
  | (Result.err msg, s') => (Result.err msg, s')
  end.

Definition processAdminCommand
    (userId locationId instruction : Text.t) (now now' : Z) (s : State)
  : Result.t AdminResponse Text.t * State :=
  let commandId := userId ++ "_" ++ Int'.toText now in
  let command :=
    {| id := commandId;
       source := AdminInterface userId locationId;
       Types.instruction := instruction;
       context := {| Types.locationId := locationId;
                     sourceMetadata := Some userId;
                     priority := 3;
                     retryCount := 0 |};
       commandTimestamp := now' |} in
  match processCommand command s with
  | (Result.ok result, s') =>
      (Result.ok {| summary := "Command executed successfully";
                    details := result;
                    recommendedActions := ["Review results"; "Monitor progress"];
                    alerts := [] |}, s')
  | (Result.err msg, s') => (Result.err msg, s')
  end.

(** The loop adds the entries it meets while [count < limit]. *)
Definition getCommandHistory (limit : nat) (s : State) : list Command :=
  List.map snd (List.firstn limit (HashMap.entries (commands s))).

Definition getExecutionResult (commandId : Text.t) (s : State) : option ExecutionResult :=
  HashMap.get (results s) commandId.

Definition getTotalCommands (s : State) : nat := HashMap.size (commands s).

Definition getCanisterStatus (s : State) : Text.t :=
  "Agent Adam is online and ready to process commands".

End AgentAdam.

(** ** The demo service of the chat front end

    [DemoICPService] of src/frontend/components/Chat.js: the command
    history and the command counter.  The response generator, which draws
    on the clock and on random numbers, is a parameter. *)

Module DemoICPService.

Record DemoCommand := {
  demoId : Text.t;
  demoInstruction : Text.t;
  demoTimestamp : Z;
  demoSource : Text.t
}.

Record Service := {
  isInitialized : bool;
  commandHistory : list DemoCommand;
  totalCommands : nat
}.

(** The constructor. *)
Definition create : Service :=
  {| isInitialized := false; commandHistory := []; totalCommands := 0 |}.

Definition init (s : Service) : bool * Service :=
  (true, {| isInitialized := true;
            commandHistory := commandHistory s;
            totalCommands := totalCommands s |}).

Section Process.

Variables Context Response : Type.
Variable generateDemoResponse : Text.t -> Response.

(** [unshift] puts the command in front; [pop] drops the last one when the
    history has grown beyond ten.  [now] is [Date.now()], [now'] the time
    of [new Date()]. *)
Definition processCommand
    (instruction : Text.t) (context : Context) (now now' : Z) (s : Service)
  : Response * Service :=
  let totalCommands' := S (totalCommands s) in
  let command :=
    {| demoId := "demo_cmd_" ++ Int'.toText now;
       demoInstruction := instruction;
       demoTimestamp := now';
       demoSource := "demo-interface" |} in
  let history := command :: commandHistory s in
  let history' :=
    if (10 <? List.length history)%nat then List.removelast history else history in
  (generateDemoResponse instruction,
   {| isInitialized := isInitialized s;
      commandHistory := history';
      totalCommands := totalCommands' |}).

End Process.

(** [slice(0, limit)] for a limit that is a natural number. *)
Definition getHistory (limit : nat) (s : Service) : list DemoCommand :=
  List.firstn limit (commandHistory s).

End DemoICPService.

(** ** Notions used to state the properties *)

Module Props.
Import Types CommandProcessor.

(** The keyword sequence [words] has a keyword of the family [family]. *)
Definition containsKeyword (words family : list Text.t) : Prop :=
  exists word, In word words /\ In word family.

(** The five keyword families of the intent classifier. *)
Definition keywordFamilies : list Text.t :=
  (createKeywords ++ updateKeywords ++ deleteKeywords
   ++ queryKeywords ++ automationKeywords)%list.

(** The entities one keyword gives rise to. *)
Definition entitiesOfWord (word : Text.t) : list Entity :=
  ((if isGHLEntity word then [ghlObject word] else [])
   ++ (if isTimeWord word then [timeReference word] else [])
   ++ (if isNumberWord word then [number word] else []))%list.

(** The entity sequence in discovery order over the keyword sequence, as
    the data model describes it: the entities of the first keyword, then
    those of the second, and so on, duplicates kept. *)
Definition entitiesInDiscoveryOrder (words : list Text.t) : list Entity :=
  List.flat_map entitiesOfWord words.

Definition hasEntityType (ty : Text.t) (e : Entity) : bool :=
  Text.equal (entityType e) ty.

(** Number of [ghl_object] entities. *)
Definition ghlObjectCount (ents : list Entity) : nat :=
  List.length (List.filter (hasEntityType "ghl_object") ents).

(** Share of [ghl_object] entities among the keywords, 0 without keywords. *)
Definition ghlDensity (ents : list Entity) (words : list Text.t) : Q :=
  match words with
  | [] => 0
  | _ => inject_Z (Z.of_nat (ghlObjectCount ents))
         / inject_Z (Z.of_nat (List.length words))
  end%Q.

(** What one literal check of [extractConditions] adds: one tag or none. *)
Definition tagCount (present : bool) : nat := if present then 1 else 0.

(** The base confidence of an intent. *)
Definition baseOf (intent : Intent) : Q :=
  match intent with
  | Unknown => 0.1
  | _ => 0.6
  end%Q.

(** The score before the cap at 1.0. *)
Definition uncapped (intent : Intent) (ents : list Entity) (words : list Text.t) : Q :=
  (baseOf intent + 0.1 * inject_Z (Z.of_nat (List.length ents))
   + 0.2 * ghlDensity ents words)%Q.

(** The payload of an intent is drawn from the fixed vocabularies. *)
Definition objectTypes : list Text.t := "unknown" :: ghlEntities.
Definition identifiers : list Text.t :=
  ["quoted_identifier"; "extracted_id"; "auto_detected"].
Definition conditionTags : list Text.t := ["conditional"; "temporal"].

Definition wellFormedIntent (i : Intent) : Prop :=
  match i with
  | Create objectType => In objectType objectTypes
  | Update objectType identifier | Delete objectType identifier =>
      In objectType objectTypes /\ In identifier identifiers
  | Query objectType filters =>
      In objectType objectTypes /\ Forall (fun f => In f filterWords) filters
  | Automation triggerType conditions =>
      In triggerType ("manual" :: triggerTypes)
      /\ Forall (fun c => In c conditionTags) conditions
  | Unknown => True
  end.

(** The score of an instruction from its keyword sequence alone, before
    the cap: the base of the intent, 0.1 for each keyword that is a CRM
    object or a time word, and 0.2 times the share of CRM objects among
    the keywords. *)
Definition keywordScore (intent : Intent) (words : list Text.t) : Q :=
  (baseOf intent
   + 0.1 * inject_Z (Z.of_nat (List.length (List.filter isGHLEntity words)
                               + List.length (List.filter isTimeWord words)))
   + 0.2 * match words with
           | [] => 0
           | _ => inject_Z (Z.of_nat (List.length (List.filter isGHLEntity words)))
                  / inject_Z (Z.of_nat (List.length words))
           end)%Q.

(** The objects whose creation needs approval. *)
Definition criticalObjects : list Text.t := ["workflow"; "campaign"; "automation"].

(** The actions a voice response can name. *)
Definition voiceActionNames : list Text.t :=
  ["contact_created"; "email_sent"; "appointment_scheduled";
   "opportunity_updated"; "action_completed"].

(** The replies offered when no next step is short enough. *)
Definition defaultReplies : list Text.t := ["Got it!"; "Tell me more"; "What's next?"].

(** Two statuses are of the same variant. *)
Definition sameVariant (a b : ExecutionStatus) : Prop :=
  match a, b with
  | Pending, Pending | Processing, Processing | Completed, Completed => True
  | Failed _, Failed _ | PartialSuccess _, PartialSuccess _ => True
  | _, _ => False
  end.

(** A map holds at most one entry for a key. *)
Definition oneEntryPerKey {V} (m : HashMap.t V) : Prop := NoDup (map fst m).

(** The invariant of the actor's state: its three maps hold one entry for
    a key. *)
Definition consistent (s : AgentAdam.State) : Prop :=
  oneEntryPerKey (AgentAdam.commands s)
  /\ oneEntryPerKey (AgentAdam.results s)
  /\ oneEntryPerKey (AgentAdam.preferences s).

(** The result that [processCommand] stores for a command id. *)
Definition processed (commandId : Text.t) : ExecutionResult :=
  {| commandId := commandId;
     status := Completed;
     actions := [];
     insights := ["Command processed successfully"];
     nextSteps := ["Review execution result"];
     duration := 100 |}.

Definition sampleCommand (commandId : Text.t) : Command :=
  {| id := commandId;
     source := AdminInterface "user-1" "location-1";
     instruction := "show the contacts";
     context := {| locationId := "location-1"; sourceMetadata := None;
                   priority := 3; retryCount := 0 |};
     commandTimestamp := 1000%Z |}.

(** One call of the demo service: the instruction, the context, the time
    read by [Date.now()] and the time of [new Date()]. *)
Definition DemoCall (Context : Type) : Type := (Text.t * Context * Z * Z)%type.

(** The command the demo service makes of a call. *)
Definition demoCommand {Context} (call : DemoCall Context)
  : DemoICPService.DemoCommand :=
  match call with
  | (instruction, _, now, now') =>
      {| DemoICPService.demoId := "demo_cmd_" ++ Int'.toText now;
         DemoICPService.demoInstruction := instruction;
         DemoICPService.demoTimestamp := now';
         DemoICPService.demoSource := "demo-interface" |}
  end.

(** The service after a series of calls of [processCommand], first call
    first. *)
Definition demoRun {Context Response} (generate : Text.t -> Response)
    (calls : list (DemoCall Context)) (s : DemoICPService.Service)
  : DemoICPService.Service :=
  List.fold_left
    (fun s call =>
       match call with
       | (instruction, context, now, now') =>
           snd (DemoICPService.processCommand Context Response generate
                  instruction context now now' s)
       end)
    calls s.

Definition sampleAction (ty : Text.t) : ExecutedAction :=
  {| actionType := ty; description := "step"; result := "done"; timestamp := 17%Z |}.

Definition sampleContext (p : nat) : CommandContext :=
  {| locationId := "location-1"; sourceMetadata := None;
     priority := p; retryCount := 0 |}.

Definition sampleResult (s : ExecutionStatus) : ExecutionResult :=
  {| commandId := "cmd-7"; status := s; actions := [];
     insights := ["Contact created"]; nextSteps := []; duration := 42 |}.

End Props.

(** ** Facts about the base-library functions *)

Module BaseFacts.

Lemma equal_true (a b : Text.t) : Text.equal a b = true <-> a = b.
Proof. apply String.eqb_eq. Qed.

Lemma found_true {A} (xs : list A) (p : A -> bool) :
  Array.found xs p = true <-> exists x, In x xs /\ p x = true.
Proof.
  unfold Array.found. destruct (find p xs) as [x|] eqn:E.
  - apply find_some in E. split; [intros _; now exists x | reflexivity].
  - split; [discriminate|]. intros [x [Hin Hp]].
    rewrite (find_none _ _ E x Hin) in Hp. discriminate.
Qed.

Lemma found_false {A} (xs : list A) (p : A -> bool) :
  Array.found xs p = false <-> forall x, In x xs -> p x = false.
Proof.
  split.
  - intros H x Hin. destruct (p x) eqn:E; [|reflexivity].
    assert (Array.found xs p = true) by (apply found_true; now exists x).
    congruence.
  - intros H. destruct (Array.found xs p) eqn:E; [|reflexivity].
    apply found_true in E. destruct E as [x [Hin Hp]].
    rewrite (H x Hin) in Hp. discriminate.
Qed.

(** Membership in a vocabulary, as the program tests it. *)
Lemma found_equal (vocabulary : list Text.t) (word : Text.t) :
  Array.found vocabulary (fun v => Text.equal v word) = true <-> In word vocabulary.
Proof.
  rewrite found_true. split.
  - intros [x [Hin Heq]]. apply equal_true in Heq. now subst.
  - intros Hin. exists word. split; [assumption | now apply equal_true].
Qed.

End BaseFacts.

(** ** The intent classifier and the approval gate *)

Module Interpretation.
Import Types CommandProcessor Props BaseFacts.

Local Arguments Text.equal : simpl never.

Lemma hasAnyKeyword_true (words family : list Text.t) :
  hasAnyKeyword words family = true <-> containsKeyword words family.
Proof.
  unfold hasAnyKeyword, containsKeyword. rewrite found_true.
  split; intros [w [Hin H]]; exists w; (split; [assumption|]);
    now apply found_equal.
Qed.

Lemma hasAnyKeyword_false (words family : list Text.t) :
  hasAnyKeyword words family = false <-> ~ containsKeyword words family.
Proof.
  rewrite <- hasAnyKeyword_true. destruct (hasAnyKeyword words family).
  - split; [discriminate | intros H; now elim H].
  - split; [discriminate | reflexivity].
Qed.

(** The families are tried in the order Create, Update, Delete: a
    deletion keyword decides the intent when the two families before it
    are absent. *)
Lemma detectIntent_delete (words : list Text.t) (instruction : Text.t) :
  ~ containsKeyword words createKeywords ->
  ~ containsKeyword words updateKeywords ->
  containsKeyword words deleteKeywords ->
  detectIntent words instruction
  = Delete (findGHLEntity words) (extractIdentifier (Text.toLowercase instruction)).
Proof.
  intros Hc Hu Hd. unfold detectIntent.
  apply hasAnyKeyword_false in Hc, Hu. apply hasAnyKeyword_true in Hd.
  now rewrite Hc, Hu, Hd.
Qed.

Lemma no_family_split (words : list Text.t) :
  ~ containsKeyword words keywordFamilies ->
  ~ containsKeyword words createKeywords
  /\ ~ containsKeyword words updateKeywords
  /\ ~ containsKeyword words deleteKeywords
  /\ ~ containsKeyword words queryKeywords
  /\ ~ containsKeyword words automationKeywords.
Proof.
  intros H. unfold keywordFamilies in H.
  repeat split; intros [w [Hin Hk]]; apply H; exists w;
    (split; [assumption|]); repeat rewrite in_app_iff; tauto.
Qed.

Lemma detectIntent_unknown (words : list Text.t) (instruction : Text.t) :
  ~ containsKeyword words keywordFamilies ->
  detectIntent words instruction = Unknown.
Proof.
  intros H. apply no_family_split in H.
  destruct H as (Hc & Hu & Hd & Hq & Ha).
  apply hasAnyKeyword_false in Hc, Hu, Hd, Hq, Ha.
  unfold detectIntent. now rewrite Hc, Hu, Hd, Hq, Ha.
Qed.

(** Every keyword is longer than two characters and is no stop word. *)
Lemma extractKeywords_spec (instruction word : Text.t) :
  In word (extractKeywords instruction) ->
  2 < Text.size word /\ isStopWord word = false.
Proof.
  unfold extractKeywords. intros H. apply filter_In in H.
  destruct H as [_ H]. apply andb_true_iff in H. destruct H as [Hs Hw].
  apply Nat.ltb_lt in Hs. apply negb_true_iff in Hw. now split.
Qed.

Lemma isNumberWord_size (word : Text.t) :
  isNumberWord word = true -> Text.size word <= 2.
Proof.
  unfold isNumberWord. intros H.
  repeat (apply orb_true_iff in H; destruct H as [H|H]);
    apply equal_true in H; subst; simpl; lia.
Qed.

Lemma keyword_not_number (instruction word : Text.t) :
  In word (extractKeywords instruction) -> isNumberWord word = false.
Proof.
  intros H. apply extractKeywords_spec in H. destruct H as [H _].
  destruct (isNumberWord word) eqn:E; [|reflexivity].
  apply isNumberWord_size in E. lia.
Qed.

Lemma filter_none {A} (p : A -> bool) (xs : list A) :
  (forall x, In x xs -> p x = false) -> filter p xs = [].
Proof.
  induction xs as [|x xs IH]; intros H; [reflexivity|].
  simpl. rewrite (H x (or_introl eq_refl)). apply IH.
  intros y Hy. apply H. now right.
Qed.

(** ** C1 *)

(** C1, as the claim states it, fails: the instruction "create contact
    delete" has the deletion keyword "delete" in its keyword sequence,
    is classified as Create of a contact, and needs no approval. *)
Lemma deletion_keyword_without_approval :
  extractKeywords "create contact delete" = ["create"; "contact"; "delete"]
  /\ containsKeyword (extractKeywords "create contact delete") deleteKeywords
  /\ intent (interpretCommand "create contact delete" (sampleContext 1))
     = Create "contact"
  /\ requiresApproval (interpretCommand "create contact delete" (sampleContext 1))
     = false.
Proof.
  repeat split; try reflexivity.
  exists "delete". split; simpl; tauto.
Qed.

(** C1 (amended): when the keyword sequence of an instruction has a
    deletion-family keyword and no keyword of the Create and Update
    families, which are tried first, [interpretCommand] returns a Delete
    intent and [requiresApproval = true], whatever the context and its
    priority. *)
Theorem deletion_requires_approval (instruction : Text.t) (context : CommandContext) :
  containsKeyword (extractKeywords instruction) deleteKeywords ->
  ~ containsKeyword (extractKeywords instruction) createKeywords ->
  ~ containsKeyword (extractKeywords instruction) updateKeywords ->
  (exists objectType identifier,
      intent (interpretCommand instruction context) = Delete objectType identifier)
  /\ requiresApproval (interpretCommand instruction context) = true.
Proof.
  intros Hd Hc Hu. unfold interpretCommand. simpl.
  rewrite (detectIntent_delete _ instruction Hc Hu Hd).
  split; [eauto | reflexivity].
Qed.

Lemma deletion_requires_approval_witness :
  (exists objectType identifier,
      intent (interpretCommand "delete the opportunity" (sampleContext 0))
      = Delete objectType identifier)
  /\ requiresApproval (interpretCommand "delete the opportunity" (sampleContext 0))
     = true.
Proof.
  apply (deletion_requires_approval "delete the opportunity" (sampleContext 0)).
  - exists "delete". split; simpl; tauto.
  - apply hasAnyKeyword_false. reflexivity.
  - apply hasAnyKeyword_false. reflexivity.
Defined.

(** ** C3 *)

(** C3, as the claim states it, fails: "schedule" is itself a trigger
    type and comes first in the keyword sequence, so the trigger type of
    the scenario is "schedule", not "form". *)
Lemma scenario_trigger_is_not_form :
  extractKeywords "schedule an automation when a form is submitted"
  = ["schedule"; "automation"; "when"; "form"; "submitted"]
  /\ intent (interpretCommand "schedule an automation when a form is submitted"
               (sampleContext 0))
     <> Automation "form" ["conditional"].
Proof. split; [reflexivity | discriminate]. Qed.

(** C3 (amended): for the instruction "schedule an automation when a
    form is submitted" and any context, [interpretCommand] returns the
    intent Automation with triggerType "schedule" (the first keyword
    that is a trigger type) and conditions ["conditional"], and
    [requiresApproval = true]. *)
Theorem scenario_schedule_automation (context : CommandContext) :
  intent (interpretCommand "schedule an automation when a form is submitted" context)
  = Automation "schedule" ["conditional"]
  /\ requiresApproval
       (interpretCommand "schedule an automation when a form is submitted" context)
     = true.
Proof. split; reflexivity. Qed.

(** ** C4 *)

(** C4, as the claim states it, fails: "notification" contains "if", so
    this Automation instruction contains both "when" and "if", and its
    conditions hold the tag "conditional" twice. *)
Lemma conditional_tag_twice :
  Text.contains
    (Text.toLowercase "schedule a notification when the form is submitted") "when"
  = true
  /\ Text.contains
       (Text.toLowercase "schedule a notification when the form is submitted") "if"
     = true
  /\ intent (interpretCommand "schedule a notification when the form is submitted"
               (sampleContext 0))
     = Automation "schedule" ["conditional"; "conditional"].
Proof. repeat split; reflexivity. Qed.

Lemma extractConditions_counts (instruction : Text.t) :
  count_occ string_dec (extractConditions instruction) "conditional"
  = tagCount (Text.contains instruction "when")
    + tagCount (Text.contains instruction "if")
  /\ count_occ string_dec (extractConditions instruction) "temporal"
     = tagCount (Text.contains instruction "after")
       + tagCount (Text.contains instruction "before")
  /\ List.length (extractConditions instruction)
     = tagCount (Text.contains instruction "when")
       + tagCount (Text.contains instruction "if")
       + tagCount (Text.contains instruction "after")
       + tagCount (Text.contains instruction "before").
Proof.
  unfold extractConditions.
  destruct (Text.contains instruction "when"),
           (Text.contains instruction "if"),
           (Text.contains instruction "after"),
           (Text.contains instruction "before"); repeat split; reflexivity.
Qed.

Lemma tagCount_le (present : bool) : tagCount present <= 1.
Proof. destruct present; simpl; lia. Qed.

(** The conditions of an Automation intent are those of the lower-cased
    instruction. *)
Lemma detectIntent_automation
    (words : list Text.t) (instruction triggerType : Text.t)
    (conditions : list Text.t) :
  detectIntent words instruction = Automation triggerType conditions ->
  conditions = extractConditions (Text.toLowercase instruction).
Proof.
  unfold detectIntent.
  repeat match goal with
         | |- context [if ?b then _ else _] => destruct b; try discriminate
         end.
  intros H. now inversion H.
Qed.

(** C4 (amended): for every instruction classified as Automation, each
    of the four literal checks adds its tag at most once: "conditional"
    occurs once for "when" and once more for "if" (twice when the
    lower-cased instruction contains both), "temporal" once for "after"
    and once more for "before", so each tag occurs at most twice and
    conditions has at most four elements. *)
Theorem conditions_per_literal
    (instruction : Text.t) (context : CommandContext)
    (triggerType : Text.t) (conditions : list Text.t) :
  intent (interpretCommand instruction context) = Automation triggerType conditions ->
  count_occ string_dec conditions "conditional"
  = tagCount (Text.contains (Text.toLowercase instruction) "when")
    + tagCount (Text.contains (Text.toLowercase instruction) "if")
  /\ count_occ string_dec conditions "temporal"
     = tagCount (Text.contains (Text.toLowercase instruction) "after")
       + tagCount (Text.contains (Text.toLowercase instruction) "before")
  /\ count_occ string_dec conditions "conditional" <= 2
  /\ count_occ string_dec conditions "temporal" <= 2
  /\ List.length conditions <= 4.
Proof.
  unfold interpretCommand. simpl. intros H.
  apply detectIntent_automation in H. subst conditions.
  destruct (extractConditions_counts (Text.toLowercase instruction))
    as (Hc & Ht & Hl).
  pose proof (tagCount_le (Text.contains (Text.toLowercase instruction) "when")).
  pose proof (tagCount_le (Text.contains (Text.toLowercase instruction) "if")).
  pose proof (tagCount_le (Text.contains (Text.toLowercase instruction) "after")).
  pose proof (tagCount_le (Text.contains (Text.toLowercase instruction) "before")).
  repeat split; try assumption; lia.
Qed.

Lemma conditions_per_literal_witness :
  count_occ string_dec ["conditional"; "conditional"; "temporal"; "temporal"]
    "conditional"
  = tagCount (Text.contains
                (Text.toLowercase "Schedule email if paid before or after when due")
                "when")
    + tagCount (Text.contains
                  (Text.toLowercase "Schedule email if paid before or after when due")
                  "if")
  /\ count_occ string_dec ["conditional"; "conditional"; "temporal"; "temporal"]
       "temporal"
     = tagCount (Text.contains
                   (Text.toLowercase "Schedule email if paid before or after when due")
                   "after")
       + tagCount (Text.contains
                     (Text.toLowercase "Schedule email if paid before or after when due")
                     "before")
  /\ count_occ string_dec ["conditional"; "conditional"; "temporal"; "temporal"]
       "conditional" <= 2
  /\ count_occ string_dec ["conditional"; "conditional"; "temporal"; "temporal"]
       "temporal" <= 2
  /\ List.length ["conditional"; "conditional"; "temporal"; "temporal"] <= 4.
Proof.
  apply (conditions_per_literal
           "Schedule email if paid before or after when due" (sampleContext 2)
           "schedule").
  reflexivity.
Defined.

(** ** C5 *)

(** C5, as the claim states it, fails: in "tomorrow contact" the keyword
    "tomorrow" comes before "contact", and the entity of "contact" comes
    before the entity of "tomorrow". *)
Lemma entities_not_in_discovery_order :
  extractKeywords "tomorrow contact" = ["tomorrow"; "contact"]
  /\ entities (interpretCommand "tomorrow contact" (sampleContext 0))
     = [ghlObject "contact"; timeReference "tomorrow"]
  /\ entitiesInDiscoveryOrder (extractKeywords "tomorrow contact")
     = [timeReference "tomorrow"; ghlObject "contact"]
  /\ entities (interpretCommand "tomorrow contact" (sampleContext 0))
     <> entitiesInDiscoveryOrder (extractKeywords "tomorrow contact").
Proof. repeat split; try reflexivity. discriminate. Qed.

Lemma filter_flat_map {A B} (p : B -> bool) (f : A -> list B) (xs : list A) :
  filter p (flat_map f xs) = flat_map (fun x => filter p (f x)) xs.
Proof.
  induction xs as [|x xs IH]; [reflexivity|].
  simpl. now rewrite filter_app, IH.
Qed.

Lemma flat_map_filter_map {A B} (q : A -> bool) (g : A -> B) (xs : list A) :
  flat_map (fun x => if q x then [g x] else []) xs = map g (filter q xs).
Proof.
  induction xs as [|x xs IH]; [reflexivity|].
  simpl. destruct (q x); simpl; now rewrite IH.
Qed.

Lemma filter_map_const {A B} (p : B -> bool) (g : A -> B) (b : bool) (xs : list A) :
  (forall x, p (g x) = b) ->
  filter p (map g xs) = if b then map g xs else [].
Proof.
  intros H. induction xs as [|x xs IH]; [now destruct b|].
  simpl. rewrite H, IH. now destruct b.
Qed.

(** The entities of one type, in the discovery-order sequence, are the
    entities of that pass of [extractEntities]. *)
Lemma discovery_order_by_type (ty : Text.t) (words : list Text.t) :
  filter (hasEntityType ty) (entitiesInDiscoveryOrder words)
  = ((if Text.equal "ghl_object" ty
      then map ghlObject (filter isGHLEntity words) else [])
     ++ (if Text.equal "time_reference" ty
         then map timeReference (filter isTimeWord words) else [])
     ++ (if Text.equal "number" ty
         then map number (filter isNumberWord words) else []))%list.
Proof.
  unfold entitiesInDiscoveryOrder. rewrite filter_flat_map.
  induction words as [|w ws IH]; simpl.
  - now destruct (Text.equal "ghl_object" ty), (Text.equal "time_reference" ty),
      (Text.equal "number" ty).
  - rewrite IH. unfold entitiesOfWord, hasEntityType.
    repeat rewrite filter_app.
    destruct (isGHLEntity w), (isTimeWord w), (isNumberWord w); simpl;
      destruct (Text.equal "ghl_object" ty) eqn:E1;
      destruct (Text.equal "time_reference" ty) eqn:E2;
      destruct (Text.equal "number" ty) eqn:E3; simpl;
      try reflexivity;
      repeat match goal with
             | H : Text.equal _ _ = true |- _ => apply equal_true in H
             end; subst; try discriminate.
Qed.

Lemma extractEntities_by_type (ty : Text.t) (words : list Text.t) (i : Text.t) :
  filter (hasEntityType ty) (extractEntities words i)
  = ((if Text.equal "ghl_object" ty
      then map ghlObject (filter isGHLEntity words) else [])
     ++ (if Text.equal "time_reference" ty
         then map timeReference (filter isTimeWord words) else [])
     ++ (if Text.equal "number" ty
         then map number (filter isNumberWord words) else []))%list.
Proof.
  unfold extractEntities. repeat rewrite filter_app.
  rewrite (filter_map_const _ ghlObject (Text.equal "ghl_object" ty))
    by reflexivity.
  rewrite (filter_map_const _ timeReference (Text.equal "time_reference" ty))
    by reflexivity.
  rewrite (filter_map_const _ number (Text.equal "number" ty))
    by reflexivity.
  reflexivity.
Qed.

Lemma discovery_order_permutation (words : list Text.t) (i : Text.t) :
  Permutation (extractEntities words i) (entitiesInDiscoveryOrder words).
Proof.
  unfold extractEntities, entitiesInDiscoveryOrder.
  induction words as [|w ws IH]; [constructor|].
  simpl. unfold entitiesOfWord at 1.
  destruct (isGHLEntity w), (isTimeWord w), (isNumberWord w); simpl;
    repeat match goal with
           | |- Permutation (?x :: _) (?x :: _) => apply perm_skip
           | |- Permutation (_ ++ ?x :: _) (?x :: _) =>
               apply Permutation_sym, Permutation_cons_app, Permutation_sym
           | |- Permutation (?l1 ++ ?l2 ++ ?x :: ?l3) (?x :: _) =>
               change (l1 ++ l2 ++ x :: l3)%list with (l1 ++ (l2 ++ x :: l3))%list;
               rewrite (app_assoc l1 l2 (x :: l3));
               apply Permutation_sym, Permutation_cons_app, Permutation_sym;
               rewrite <- app_assoc
           end; exact IH.
Qed.

(** C5 (amended): for every instruction the entity sequence holds the
    ghl_object entities first, then the time_reference entities, then
    the number entities; within each entity type the entities follow
    the discovery order in the keyword sequence; and duplicate matches
    are all retained: the sequence is a rearrangement of the
    discovery-order sequence, nothing dropped and nothing merged. *)
Theorem entities_grouped_by_type (instruction : Text.t) (context : CommandContext) :
  let found := entities (interpretCommand instruction context) in
  let discovered := entitiesInDiscoveryOrder (extractKeywords instruction) in
  found = (filter (hasEntityType "ghl_object") found
           ++ filter (hasEntityType "time_reference") found
           ++ filter (hasEntityType "number") found)%list
  /\ (forall ty, filter (hasEntityType ty) found = filter (hasEntityType ty) discovered)
  /\ Permutation found discovered.
Proof.
  unfold interpretCommand. simpl. repeat split.
  - repeat rewrite extractEntities_by_type. simpl.
    repeat rewrite app_nil_r. reflexivity.
  - intros ty. now rewrite extractEntities_by_type, discovery_order_by_type.
  - apply discovery_order_permutation.
Qed.

(** ** C7 *)

(** C7: [requiresApproval] is a function of the intent and the context
    alone, with the decision table: true for every Delete intent; for a
    Create intent true iff objectType is "workflow", "campaign" or
    "automation"; true for every Automation intent; for Update, Query
    and Unknown true iff context.priority >= 3. *)
Theorem approval_decision_table :
  (forall instruction context,
      requiresApproval (interpretCommand instruction context)
      = shouldRequireApproval (intent (interpretCommand instruction context)) context)
  /\ (forall objectType identifier context,
         shouldRequireApproval (Delete objectType identifier) context = true)
  /\ (forall objectType context,
         shouldRequireApproval (Create objectType) context = true
         <-> objectType = "workflow" \/ objectType = "campaign"
             \/ objectType = "automation")
  /\ (forall triggerType conditions context,
         shouldRequireApproval (Automation triggerType conditions) context = true)
  /\ (forall objectType identifier context,
         shouldRequireApproval (Update objectType identifier) context = true
         <-> 3 <= priority context)
  /\ (forall objectType filters context,
         shouldRequireApproval (Query objectType filters) context = true
         <-> 3 <= priority context)
  /\ (forall context,
         shouldRequireApproval Unknown context = true <-> 3 <= priority context).
Proof.
  split; [reflexivity|].
  split; [reflexivity|].
  split.
  { intros objectType context. unfold shouldRequireApproval. split.
    - intros H. repeat (apply orb_true_iff in H; destruct H as [H|H]);
        apply equal_true in H; tauto.
    - intros [H|[H|H]]; subst; reflexivity. }
  split; [reflexivity|].
  repeat split; intros; unfold shouldRequireApproval; now apply Nat.leb_le.
Qed.

(** ** C10 *)

(** C10: the tokenizer keeps only tokens longer than two characters, so
    no keyword is one of "1", "2", "5", "10", the number pass of the
    entity extractor adds nothing, and no extracted entity has the
    entityType "number". *)
Theorem no_number_entity (instruction : Text.t) (context : CommandContext) :
  Forall (fun word => 2 < Text.size word) (extractKeywords instruction)
  /\ filter isNumberWord (extractKeywords instruction) = []
  /\ Forall (fun e => entityType e <> "number")
       (entities (interpretCommand instruction context)).
Proof.
  assert (Hn : filter isNumberWord (extractKeywords instruction) = []).
  { apply filter_none. intros w Hw. now apply keyword_not_number in Hw. }
  repeat split.
  - apply Forall_forall. intros w Hw. now apply extractKeywords_spec in Hw.
  - exact Hn.
  - unfold interpretCommand. simpl. unfold extractEntities. rewrite Hn.
    simpl. rewrite app_nil_r. apply Forall_app. split;
      apply Forall_forall; intros e He; apply in_map_iff in He;
      destruct He as [w [He _]]; subst e; simpl; discriminate.
Qed.

End Interpretation.

(** ** The confidence scorer *)

Module Confidence.
Import Types CommandProcessor Props BaseFacts Interpretation.

Local Arguments Text.equal : simpl never.
Local Open Scope Q_scope.

Lemma gt_true (a b : Float.t) : Float.gt a b = true <-> b < a.
Proof.
  unfold Float.gt. rewrite negb_true_iff. split.
  - intros H. apply Qnot_le_lt. intros Hle.
    apply Qle_bool_iff in Hle. congruence.
  - intros H. destruct (Qle_bool a b) eqn:E; [|reflexivity].
    apply Qle_bool_iff in E. apply Qlt_not_le in H. contradiction.
Qed.

Lemma gt_false (a b : Float.t) : Float.gt a b = false <-> a <= b.
Proof.
  unfold Float.gt. rewrite negb_false_iff. apply Qle_bool_iff.
Qed.

Lemma fromInt_nat_nonneg (n : nat) : 0 <= Float.fromInt (Z.of_nat n).
Proof.
  unfold Float.fromInt. change 0 with (inject_Z 0).
  rewrite <- Zle_Qle. lia.
Qed.

Lemma fromInt_nat_pos (n : nat) :
  (0 < n)%nat -> 0 < Float.fromInt (Z.of_nat n).
Proof.
  intros H. unfold Float.fromInt. change 0 with (inject_Z 0).
  rewrite <- Zlt_Qlt. lia.
Qed.

(** The fold of [calculateConfidence] counts the [ghl_object] entities. *)
Lemma ghl_fold_count (ents : list Entity) (acc : Z) :
  fold_left
    (fun acc entity =>
       if Text.equal (entityType entity) "ghl_object" then (acc + 1)%Z else acc)
    ents acc
  = (acc + Z.of_nat (ghlObjectCount ents))%Z.
Proof.
  revert acc. unfold ghlObjectCount.
  induction ents as [|e ents IH]; intros acc; simpl.
  - lia.
  - rewrite IH. unfold hasEntityType.
    destruct (Text.equal (entityType e) "ghl_object"); cbn [List.length]; lia.
Qed.

Lemma baseOf_eq (intent : Intent) :
  match intent with Unknown => 0.1 | _ => 0.6 end = baseOf intent.
Proof. now destruct intent. Qed.

Lemma ghlDensity_nonneg (ents : list Entity) (words : list Text.t) :
  0 <= ghlDensity ents words.
Proof.
  unfold ghlDensity. destruct words as [|w ws]; [apply Qle_refl|].
  apply Qle_shift_div_l.
  - apply (fromInt_nat_pos (List.length (w :: ws))). simpl. lia.
  - rewrite Qmult_0_l. apply (fromInt_nat_nonneg (ghlObjectCount ents)).
Qed.

(** [calculateConfidence] is the uncapped score, cut at 1. *)
Lemma calculateConfidence_cases
    (intent : Intent) (ents : list Entity) (words : list Text.t) :
  (1 < uncapped intent ents words /\ calculateConfidence intent ents words == 1)
  \/ (uncapped intent ents words <= 1
      /\ calculateConfidence intent ents words == uncapped intent ents words).
Proof.
  unfold calculateConfidence. rewrite baseOf_eq, ghl_fold_count.
  rewrite Z.add_0_l. unfold uncapped, ghlDensity, Float.fromInt.
  destruct words as [|w ws].
  - replace (Float.gt (inject_Z (Z.of_nat (List.length (@nil Text.t)))) 0.0) with false
      by reflexivity.
    match goal with
    | |- context [Float.gt ?b 1.0] => destruct (Float.gt b 1.0) eqn:E
    end.
    + left. split; [|reflexivity]. apply gt_true in E. lra.
    + right. apply gt_false in E. split; lra.
  - assert (Hpos : Float.gt (inject_Z (Z.of_nat (List.length (w :: ws)))) 0.0 = true).
    { apply gt_true. apply (fromInt_nat_pos (List.length (w :: ws))). simpl. lia. }
    rewrite Hpos.
    match goal with
    | |- context [Float.gt ?b 1.0] => destruct (Float.gt b 1.0) eqn:E
    end.
    + left. split; [|reflexivity]. apply gt_true in E. lra.
    + right. apply gt_false in E. split; lra.
Qed.

Lemma uncapped_nonneg (intent : Intent) (ents : list Entity) (words : list Text.t) :
  0 <= uncapped intent ents words.
Proof.
  unfold uncapped.
  pose proof (ghlDensity_nonneg ents words).
  pose proof (fromInt_nat_nonneg (List.length ents)) as Hn. unfold Float.fromInt in Hn.
  assert (0 <= baseOf intent) by (destruct intent; simpl; lra).
  lra.
Qed.

Lemma calculateConfidence_range
    (intent : Intent) (ents : list Entity) (words : list Text.t) :
  0 <= calculateConfidence intent ents words <= 1.
Proof.
  pose proof (uncapped_nonneg intent ents words).
  destruct (calculateConfidence_cases intent ents words) as [[_ E]|[Hle E]].
  - rewrite E. lra.
  - rewrite E. lra.
Qed.

Lemma calculateConfidence_le_uncapped
    (intent : Intent) (ents : list Entity) (words : list Text.t) :
  calculateConfidence intent ents words <= uncapped intent ents words.
Proof.
  destruct (calculateConfidence_cases intent ents words) as [[Hlt E]|[_ E]].
  - rewrite E. lra.
  - rewrite E. lra.
Qed.

Lemma ghlDensity_zero (ents : list Entity) (words : list Text.t) :
  ghlObjectCount ents = 0%nat -> ghlDensity ents words == 0.
Proof.
  intros H. unfold ghlDensity. rewrite H. destruct words; reflexivity.
Qed.

(** ** C2 *)

(** C2, as the claim states it, fails: the instruction "contact" matches
    no keyword family and is Unknown with one entity, and its confidence
    is 0.4, above 0.1 + 0.1 x 1: the share of ghl_object entities among
    the keywords adds 0.2 x (1/1). *)
Lemma unknown_confidence_above_bound :
  ~ containsKeyword (extractKeywords "contact") keywordFamilies
  /\ intent (interpretCommand "contact" (sampleContext 0)) = Unknown
  /\ entities (interpretCommand "contact" (sampleContext 0)) = [ghlObject "contact"]
  /\ confidence (interpretCommand "contact" (sampleContext 0)) == 0.4
  /\ ~ (confidence (interpretCommand "contact" (sampleContext 0))
        <= 0.1 + 0.1 * inject_Z (Z.of_nat
               (List.length (entities (interpretCommand "contact" (sampleContext 0)))))).
Proof.
  split; [apply hasAnyKeyword_false; reflexivity|].
  repeat split. intros H. vm_compute in H. apply H. reflexivity.
Qed.

(** C2 (amended): for every instruction whose keyword sequence matches
    none of the five keyword families, [interpretCommand] returns the
    intent Unknown and a confidence no greater than
    0.1 + 0.1 x (number of extracted entities)
    + 0.2 x (number of ghl_object entities / number of keywords),
    the last term being absent when there is no keyword; without
    ghl_object entity the confidence is no greater than
    0.1 + 0.1 x (number of extracted entities). *)
Theorem unknown_confidence_bound (instruction : Text.t) (context : CommandContext) :
  ~ containsKeyword (extractKeywords instruction) keywordFamilies ->
  intent (interpretCommand instruction context) = Unknown
  /\ confidence (interpretCommand instruction context)
     <= 0.1
        + 0.1 * inject_Z (Z.of_nat
                  (List.length (entities (interpretCommand instruction context))))
        + 0.2 * ghlDensity (entities (interpretCommand instruction context))
                  (extractKeywords instruction)
  /\ (ghlObjectCount (entities (interpretCommand instruction context)) = 0%nat ->
      confidence (interpretCommand instruction context)
      <= 0.1
         + 0.1 * inject_Z (Z.of_nat
                   (List.length (entities (interpretCommand instruction context))))).
Proof.
  intros H. unfold interpretCommand. cbn [intent entities confidence].
  rewrite (detectIntent_unknown _ instruction H).
  split; [reflexivity|].
  pose proof (calculateConfidence_le_uncapped Unknown
                (extractEntities (extractKeywords instruction) instruction)
                (extractKeywords instruction)) as Hle.
  unfold uncapped in Hle. cbn [baseOf] in Hle.
  split; [exact Hle|].
  intros Hz. apply (ghlDensity_zero _ (extractKeywords instruction)) in Hz.
  rewrite Hz in Hle. lra.
Qed.

Lemma unknown_confidence_bound_witness :
  intent (interpretCommand "hello contact tomorrow" (sampleContext 0)) = Unknown
  /\ confidence (interpretCommand "hello contact tomorrow" (sampleContext 0))
     <= 0.1
        + 0.1 * inject_Z (Z.of_nat
                  (List.length (entities (interpretCommand "hello contact tomorrow"
                                            (sampleContext 0)))))
        + 0.2 * ghlDensity (entities (interpretCommand "hello contact tomorrow"
                                        (sampleContext 0)))
                  (extractKeywords "hello contact tomorrow")
  /\ (ghlObjectCount (entities (interpretCommand "hello contact tomorrow"
                                  (sampleContext 0))) = 0%nat ->
      confidence (interpretCommand "hello contact tomorrow" (sampleContext 0))
      <= 0.1
         + 0.1 * inject_Z (Z.of_nat
                   (List.length (entities (interpretCommand "hello contact tomorrow"
                                             (sampleContext 0)))))).
Proof.
  apply (unknown_confidence_bound "hello contact tomorrow" (sampleContext 0)).
  apply hasAnyKeyword_false. reflexivity.
Defined.

(** ** C6 *)

(** C6: for every instruction, the empty one included, and every
    context, the confidence returned by [interpretCommand] lies in the
    closed interval [0, 1]. *)
Theorem confidence_in_unit_interval (instruction : Text.t) (context : CommandContext) :
  0 <= confidence (interpretCommand instruction context) <= 1.
Proof.
  unfold interpretCommand. cbn [confidence].
  apply calculateConfidence_range.
Qed.

End Confidence.

(** ** The voice and workflow formatters *)

Module Formatting.
Import Types GHLIntegration Props.

Lemma prefix_refl (s : Text.t) : String.prefix s s = true.
Proof.
  induction s as [|c s IH]; [reflexivity|].
  simpl. destruct (ascii_dec c c); [exact IH | congruence].
Qed.

Lemma contains_refl (s : Text.t) : Text.contains s s = true.
Proof.
  destruct s as [|c s]; [reflexivity|].
  cbn [Text.contains]. now rewrite prefix_refl.
Qed.

(** A text occurs in every text that ends with it. *)
Lemma contains_suffix (a b : Text.t) : Text.contains (a ++ b) b = true.
Proof.
  induction a as [|c a IH].
  - apply contains_refl.
  - cbn [Text.contains append]. rewrite IH. apply orb_true_r.
Qed.

(** ** C8 *)

(** C8: for every ExecutionResult with status Failed{reason} the voice
    formatting yields spokenText equal to the apology prefix followed by
    the reason, so that spokenText contains the reason, and
    shouldEndCall = true; for every ExecutionResult whose status is not
    Failed, shouldEndCall = false. *)
Theorem voice_failure_ends_call (result : ExecutionResult) :
  (forall reason,
      status result = Failed reason ->
      spokenText (formatVoiceResponse result)
      = "I'm sorry, but I encountered an issue: " ++ reason
      /\ Text.contains (spokenText (formatVoiceResponse result)) reason = true
      /\ shouldEndCall (formatVoiceResponse result) = true)
  /\ ((forall reason, status result <> Failed reason) ->
      shouldEndCall (formatVoiceResponse result) = false).
Proof.
  unfold formatVoiceResponse, generateSpokenText, shouldEndVoiceCall.
  cbn [spokenText shouldEndCall]. split.
  - intros reason H. rewrite H. repeat split. apply contains_suffix.
  - intros H. destruct (status result) as [| | |reason|warnings];
      try reflexivity. now elim (H reason).
Qed.

Lemma voice_failure_ends_call_witness :
  (spokenText (formatVoiceResponse (sampleResult (Failed "timeout")))
   = "I'm sorry, but I encountered an issue: timeout"
   /\ Text.contains
        (spokenText (formatVoiceResponse (sampleResult (Failed "timeout"))))
        "timeout" = true
   /\ shouldEndCall (formatVoiceResponse (sampleResult (Failed "timeout"))) = true)
  /\ shouldEndCall (formatVoiceResponse (sampleResult Completed)) = false.
Proof.
  split.
  - apply (proj1 (voice_failure_ends_call (sampleResult (Failed "timeout")))
             "timeout").
    reflexivity.
  - apply (proj2 (voice_failure_ends_call (sampleResult Completed))).
    intros reason. simpl. discriminate.
Defined.

(** ** C9 *)

(** C9: for every ExecutionResult with status Completed the workflow
    formatting yields decision = "continue" and nextStep = "next", with
    variables holding three string-valued pairs: the execution status
    ("completed"), the commandId and the duration in decimal; for status
    Failed it yields "stop" with nextStep "error" and no variables; for
    every other status "wait" with nextStep "pending" and no variables. *)
Theorem workflow_decision_by_status (result : ExecutionResult) :
  (status result = Completed ->
   generateWorkflowDecision result
   = {| decision := "continue";
        nextStep := "next";
        variables := [ ("execution_status", "completed");
                       ("command_id", commandId result);
                       ("duration", Nat'.toText (duration result)) ] |})
  /\ (forall reason,
         status result = Failed reason ->
         generateWorkflowDecision result
         = {| decision := "stop"; nextStep := "error"; variables := [] |})
  /\ (status result <> Completed ->
      (forall reason, status result <> Failed reason) ->
      generateWorkflowDecision result
      = {| decision := "wait"; nextStep := "pending"; variables := [] |}).
Proof.
  unfold generateWorkflowDecision, generateWorkflowVariables. repeat split.
  - intros H. now rewrite H.
  - intros reason H. now rewrite H.
  - intros Hc Hf. destruct (status result) as [| | |reason|warnings];
      try reflexivity; [now elim Hc | now elim (Hf reason)].
Qed.

Lemma workflow_decision_by_status_witness :
  generateWorkflowDecision (sampleResult Completed)
  = {| decision := "continue";
       nextStep := "next";
       variables := [ ("execution_status", "completed");
                      ("command_id", "cmd-7");
                      ("duration", "42") ] |}
  /\ generateWorkflowDecision (sampleResult (Failed "timeout"))
     = {| decision := "stop"; nextStep := "error"; variables := [] |}
  /\ generateWorkflowDecision (sampleResult (PartialSuccess ["slow"]))
     = {| decision := "wait"; nextStep := "pending"; variables := [] |}.
Proof.
  split; [|split].
  - apply (proj1 (workflow_decision_by_status (sampleResult Completed))).
    reflexivity.
  - apply (proj1 (proj2 (workflow_decision_by_status
                           (sampleResult (Failed "timeout")))) "timeout").
    reflexivity.
  - apply (proj2 (proj2 (workflow_decision_by_status
                           (sampleResult (PartialSuccess ["slow"]))))).
    + simpl. discriminate.
    + intros reason. simpl. discriminate.
Defined.

End Formatting.


(** ** More on the classifier: precedence, payloads, letter case *)

Module Classifier.
Import Types CommandProcessor Props BaseFacts Interpretation.

Local Arguments Text.equal : simpl never.

(** X1: the interpretation reads the instruction through its lower-cased
    form only: two instructions with the same lower-cased form, such as
    two spellings that differ in letter case, get the same interpretation
    in every context. *)
Theorem interpretation_ignores_case
    (instruction instruction' : Text.t) (context : CommandContext) :
  Text.toLowercase instruction = Text.toLowercase instruction' ->
  interpretCommand instruction context = interpretCommand instruction' context.
Proof.
  intros H. unfold interpretCommand, extractKeywords, detectIntent, extractEntities.
  now rewrite H.
Qed.

Lemma interpretation_ignores_case_witness :
  interpretCommand "DELETE the Contact id:42" (sampleContext 1)
  = interpretCommand "delete THE contact ID:42" (sampleContext 1).
Proof.
  apply (interpretation_ignores_case
           "DELETE the Contact id:42" "delete THE contact ID:42" (sampleContext 1)).
  reflexivity.
Defined.

(** The first element a predicate holds of, with what comes before it. *)
Lemma find_first {A} (p : A -> bool) (xs : list A) (x : A) :
  find p xs = Some x ->
  exists before after,
    xs = (before ++ x :: after)%list
    /\ p x = true
    /\ forall y, In y before -> p y = false.
Proof.
  induction xs as [|a xs IH]; [discriminate|].
  simpl. destruct (p a) eqn:E.
  - intros H. inversion H. subst a. exists [], xs. repeat split; trivial.
    intros y [].
  - intros H. destruct (IH H) as (before & after & Hxs & Hp & Hb).
    exists (a :: before), after. subst xs. repeat split; trivial.
    intros y [Hy|Hy]; [now subst | now apply Hb].
Qed.

(** X3: [findGHLEntity] returns the first keyword that is in the CRM-object
    vocabulary, however many follow it, and "unknown" exactly when no
    keyword is in the vocabulary. *)
Theorem findGHLEntity_first (words : list Text.t) :
  (findGHLEntity words = "unknown"
   /\ forall word, In word words -> ~ In word ghlEntities)
  \/ (exists before after,
         words = (before ++ findGHLEntity words :: after)%list
         /\ In (findGHLEntity words) ghlEntities
         /\ forall word, In word before -> ~ In word ghlEntities).
Proof.
  unfold findGHLEntity.
  destruct (find (fun word => Array.found ghlEntities
                                (fun entity => Text.equal entity word)) words)
    as [e|] eqn:E.
  - right. apply find_first in E. destruct E as (before & after & Hw & He & Hb).
    exists before, after. repeat split; trivial.
    + now apply found_equal.
    + intros w Hw' Hin. apply found_equal in Hin.
      rewrite (Hb w Hw') in Hin. discriminate.
  - left. split; [reflexivity|]. intros w Hw Hin. apply found_equal in Hin.
    rewrite (find_none _ _ E w Hw) in Hin. discriminate.
Qed.

(** X2: the keyword families are tried in the fixed order Create, Update,
    Delete, Query, Automation and the first family with a keyword in the
    sequence decides the variant, whatever keywords of later families are
    there too; the intent is Unknown exactly when no family has a keyword
    in the sequence. *)
Theorem detectIntent_precedence (words : list Text.t) (instruction : Text.t) :
  (containsKeyword words createKeywords ->
   detectIntent words instruction = Create (findGHLEntity words))
  /\ (~ containsKeyword words createKeywords ->
      containsKeyword words updateKeywords ->
      detectIntent words instruction
      = Update (findGHLEntity words)
          (extractIdentifier (Text.toLowercase instruction)))
  /\ (~ containsKeyword words createKeywords ->
      ~ containsKeyword words updateKeywords ->
      containsKeyword words deleteKeywords ->
      detectIntent words instruction
      = Delete (findGHLEntity words)
          (extractIdentifier (Text.toLowercase instruction)))
  /\ (~ containsKeyword words createKeywords ->
      ~ containsKeyword words updateKeywords ->
      ~ containsKeyword words deleteKeywords ->
      containsKeyword words queryKeywords ->
      detectIntent words instruction
      = Query (findGHLEntity words) (extractFilters words))
  /\ (~ containsKeyword words createKeywords ->
      ~ containsKeyword words updateKeywords ->
      ~ containsKeyword words deleteKeywords ->
      ~ containsKeyword words queryKeywords ->
      containsKeyword words automationKeywords ->
      detectIntent words instruction
      = Automation (findTriggerType words)
          (extractConditions (Text.toLowercase instruction)))
  /\ (detectIntent words instruction = Unknown
      <-> ~ containsKeyword words keywordFamilies).
Proof.
  unfold detectIntent.
  repeat split;
    repeat match goal with
           | |- _ -> _ => intro
           | H : containsKeyword _ _ |- _ =>
               apply hasAnyKeyword_true in H; rewrite H
           | H : ~ containsKeyword _ ?f |- context [hasAnyKeyword _ ?f] =>
               apply hasAnyKeyword_false in H; rewrite H
           end; try reflexivity.
  - intros [w [Hw Hk]]. unfold keywordFamilies in Hk.
    repeat rewrite in_app_iff in Hk.
    assert (Hc : forall f, In w f -> hasAnyKeyword words f = true)
      by (intros f Hf; apply hasAnyKeyword_true; now exists w).
    destruct Hk as [Hk|[Hk|[Hk|[Hk|Hk]]]]; apply Hc in Hk;
      repeat match goal with
             | H : context [if hasAnyKeyword ?ws ?f then _ else _] |- _ =>
                 destruct (hasAnyKeyword ws f); try discriminate
             end.
  - now apply detectIntent_unknown.
Qed.

Lemma detectIntent_precedence_witness :
  detectIntent ["delete"; "create"; "show"; "contact"] "delete create show contact"
  = Create "contact"
  /\ detectIntent ["show"; "stop"; "lead"] "show stop lead"
     = Delete "lead" "auto_detected".
Proof.
  split.
  - apply (proj1 (detectIntent_precedence
                    ["delete"; "create"; "show"; "contact"]
                    "delete create show contact")).
    exists "create". split; simpl; tauto.
  - apply (proj1 (proj2 (proj2 (detectIntent_precedence
                                  ["show"; "stop"; "lead"] "show stop lead")))).
    + apply hasAnyKeyword_false. reflexivity.
    + apply hasAnyKeyword_false. reflexivity.
    + exists "stop". split; simpl; tauto.
Defined.

Lemma find_default_in (vocabulary words : list Text.t) (default : Text.t) :
  In (match find (fun word => Array.found vocabulary
                                (fun v => Text.equal v word)) words with
      | Some x => x
      | None => default
      end) (default :: vocabulary).
Proof.
  destruct (find _ words) as [x|] eqn:E; [|now left].
  right. apply find_some in E. now apply found_equal.
Qed.

Lemma extractIdentifier_in (instruction : Text.t) :
  In (extractIdentifier instruction) identifiers.
Proof.
  unfold extractIdentifier, identifiers.
  destruct (Text.contains instruction doubleQuote); [simpl; tauto|].
  destruct (Text.contains instruction "id:"); simpl; tauto.
Qed.

Lemma extractFilters_in (words : list Text.t) :
  Forall (fun f => In f filterWords) (extractFilters words).
Proof.
  apply Forall_forall. intros f Hf. unfold extractFilters in Hf.
  apply filter_In in Hf. now apply found_equal.
Qed.

Lemma extractConditions_in (instruction : Text.t) :
  Forall (fun c => In c conditionTags) (extractConditions instruction).
Proof.
  unfold extractConditions, conditionTags.
  destruct (Text.contains instruction "when"),
           (Text.contains instruction "if"),
           (Text.contains instruction "after"),
           (Text.contains instruction "before"); cbn [app];
    repeat (apply Forall_cons; [cbn [In]; tauto|]); apply Forall_nil.
Qed.

(** X4: whatever the instruction, the payload of the returned intent is
    drawn from fixed vocabularies: objectType is a CRM object or
    "unknown", identifier one of the three placeholders, every filter a
    filter word, triggerType a trigger type or "manual", every condition
    "conditional" or "temporal"; no text of the instruction gets into the
    intent otherwise. *)
Theorem intent_payload_well_formed (instruction : Text.t) (context : CommandContext) :
  wellFormedIntent (intent (interpretCommand instruction context)).
Proof.
  unfold interpretCommand. cbn [intent]. unfold detectIntent.
  pose proof (find_default_in ghlEntities (extractKeywords instruction) "unknown")
    as Ho.
  pose proof (find_default_in triggerTypes (extractKeywords instruction) "manual")
    as Ht.
  fold (findGHLEntity (extractKeywords instruction)) in Ho.
  fold (findTriggerType (extractKeywords instruction)) in Ht.
  repeat match goal with
         | |- context [if ?b then _ else _] => destruct b
         end; cbn [wellFormedIntent]; trivial; split; trivial.
  - apply extractIdentifier_in.
  - apply extractIdentifier_in.
  - apply extractFilters_in.
  - apply extractConditions_in.
Qed.

(** X5: "new" is listed as a filter word, and it is a Create keyword too:
    an instruction with the keyword "new" is classified as Create before
    the Query family is tried, so the filters of a Query intent never
    hold "new"; they are the filter words among the keywords, in order. *)
Theorem query_filters_never_new
    (instruction : Text.t) (context : CommandContext)
    (objectType : Text.t) (filters : list Text.t) :
  intent (interpretCommand instruction context) = Query objectType filters ->
  In "new" filterWords
  /\ ~ In "new" filters
  /\ filters = extractFilters (extractKeywords instruction).
Proof.
  unfold interpretCommand. cbn [intent]. unfold detectIntent.
  destruct (hasAnyKeyword (extractKeywords instruction) createKeywords) eqn:Ec;
    [discriminate|].
  repeat match goal with
         | |- context [if ?b then _ else _] => destruct b; try discriminate
         end.
  intros H. inversion H. subst. split; [simpl; tauto|]. split; [|reflexivity].
  intros Hin. unfold extractFilters in Hin. apply filter_In in Hin.
  destruct Hin as [Hin _]. apply hasAnyKeyword_false in Ec. apply Ec.
  exists "new". split; [assumption | simpl; tauto].
Qed.

Lemma query_filters_never_new_witness :
  In "new" filterWords
  /\ ~ In "new" ["active"; "today"]
  /\ ["active"; "today"]
     = extractFilters (extractKeywords "show active leads from today").
Proof.
  apply (query_filters_never_new "show active leads from today" (sampleContext 0)
           "unknown").
  reflexivity.
Defined.

(** The three vocabularies of the entity extractor have no word in common. *)
Lemma vocabularies_disjoint (word : Text.t) :
  (isGHLEntity word = true -> isTimeWord word = false /\ isNumberWord word = false)
  /\ (isTimeWord word = true -> isNumberWord word = false).
Proof.
  split; intros H; apply found_equal in H; cbn [In ghlEntities timeWords] in H;
    repeat (destruct H as [H|H]; [subst word; now vm_compute|]);
    contradiction.
Qed.

Lemma entitiesOfWord_length (word : Text.t) :
  List.length (entitiesOfWord word) <= 1.
Proof.
  unfold entitiesOfWord.
  destruct (vocabularies_disjoint word) as [Hg Ht].
  destruct (isGHLEntity word).
  - destruct (Hg eq_refl) as [H1 H2]. rewrite H1, H2. simpl. lia.
  - destruct (isTimeWord word).
    + rewrite (Ht eq_refl). simpl. lia.
    + destruct (isNumberWord word); simpl; lia.
Qed.

Lemma discovery_order_length (words : list Text.t) :
  List.length (entitiesInDiscoveryOrder words) <= List.length words.
Proof.
  unfold entitiesInDiscoveryOrder.
  induction words as [|w ws IH]; [simpl; lia|].
  cbn [flat_map]. rewrite length_app. cbn [List.length].
  pose proof (entitiesOfWord_length w). lia.
Qed.

(** X6: a keyword gives rise to at most one entity, the three vocabularies
    having no word in common, so an instruction never has more entities
    than keywords. *)
Theorem entities_at_most_keywords (instruction : Text.t) (context : CommandContext) :
  (forall word, List.length (entitiesOfWord word) <= 1)
  /\ List.length (entities (interpretCommand instruction context))
     <= List.length (extractKeywords instruction).
Proof.
  split; [apply entitiesOfWord_length|].
  unfold interpretCommand. cbn [entities].
  rewrite (Permutation_length
             (discovery_order_permutation (extractKeywords instruction) instruction)).
  apply discovery_order_length.
Qed.

(** X7: every extracted entity comes from a keyword of the instruction: it
    is a ghl_object entity with confidence 0.9 whose value is a keyword of
    the CRM-object vocabulary, or a time_reference entity with confidence
    0.8 whose value is a keyword of the time vocabulary. *)
Theorem entity_shapes (instruction : Text.t) (context : CommandContext) :
  Forall
    (fun e =>
       In (value e) (extractKeywords instruction)
       /\ ((entityType e = "ghl_object" /\ entityConfidence e = 0.9%Q
            /\ In (value e) ghlEntities)
           \/ (entityType e = "time_reference" /\ entityConfidence e = 0.8%Q
               /\ In (value e) timeWords)))
    (entities (interpretCommand instruction context)).
Proof.
  unfold interpretCommand. cbn [entities]. unfold extractEntities.
  rewrite (filter_none isNumberWord (extractKeywords instruction))
    by (intros w Hw; now apply keyword_not_number in Hw).
  cbn [map]. rewrite app_nil_r. apply Forall_app. split;
    apply Forall_forall; intros e He; apply in_map_iff in He;
    destruct He as [w [He Hw]]; subst e; apply filter_In in Hw;
    destruct Hw as [Hw Hv]; apply found_equal in Hv; cbn [value entityType
    entityConfidence ghlObject timeReference]; split; trivial.
  - left. repeat split; trivial.
  - right. repeat split; trivial.
Qed.

(** X8: an instruction without keyword (the empty instruction, or one made
    of stop words and words of one or two letters) is Unknown, has no
    entity and the confidence 0.1, and needs approval exactly at
    priority 3 or more. *)
Theorem no_keyword_interpretation (instruction : Text.t) (context : CommandContext) :
  extractKeywords instruction = [] ->
  intent (interpretCommand instruction context) = Unknown
  /\ entities (interpretCommand instruction context) = []
  /\ (confidence (interpretCommand instruction context) == 0.1)%Q
  /\ (requiresApproval (interpretCommand instruction context) = true
      <-> 3 <= priority context).
Proof.
  intros H. unfold interpretCommand. rewrite H.
  cbn [intent entities confidence requiresApproval].
  repeat split; try reflexivity; cbn [detectIntent shouldRequireApproval];
    apply Nat.leb_le.
Qed.

Lemma no_keyword_interpretation_witness :
  intent (interpretCommand "Is it on or by me" (sampleContext 3)) = Unknown
  /\ entities (interpretCommand "Is it on or by me" (sampleContext 3)) = []
  /\ (confidence (interpretCommand "Is it on or by me" (sampleContext 3)) == 0.1)%Q
  /\ (requiresApproval (interpretCommand "Is it on or by me" (sampleContext 3)) = true
      <-> 3 <= priority (sampleContext 3)).
Proof.
  apply (no_keyword_interpretation "Is it on or by me" (sampleContext 3)).
  reflexivity.
Defined.

End Classifier.


(** ** The tokenizer *)

Module Tokenizer.
Import Types CommandProcessor Props BaseFacts.

Local Arguments Text.equal : simpl never.











Lemma fields_nonempty (sep : ascii) (s : Text.t) : Text.fields sep s <> [].
Proof.
  destruct s as [|c s]; cbn [Text.fields]; [discriminate|].
  destruct (Ascii.eqb c sep); [discriminate|].
  destruct (Text.fields sep s); discriminate.
Qed.







End Tokenizer.


(** ** More on the score and on the approval gate *)

Module Scoring.
Import Types CommandProcessor Props BaseFacts Interpretation Confidence.

Local Arguments Text.equal : simpl never.
Local Open Scope Q_scope.

Lemma keyword_entities_length (instruction : Text.t) :
  List.length (extractEntities (extractKeywords instruction) instruction)
  = (List.length (filter isGHLEntity (extractKeywords instruction))
     + List.length (filter isTimeWord (extractKeywords instruction)))%nat.
Proof.
  unfold extractEntities.
  rewrite (filter_none isNumberWord (extractKeywords instruction))
    by (intros w Hw; now apply keyword_not_number in Hw).
  cbn [map]. rewrite app_nil_r, length_app, 2 length_map. reflexivity.
Qed.

Lemma ghlObjectCount_extract (words : list Text.t) (instruction : Text.t) :
  ghlObjectCount (extractEntities words instruction)
  = List.length (filter isGHLEntity words).
Proof.
  unfold ghlObjectCount. rewrite extractEntities_by_type.
  replace (Text.equal "ghl_object" "ghl_object") with true by reflexivity.
  replace (Text.equal "time_reference" "ghl_object") with false by reflexivity.
  replace (Text.equal "number" "ghl_object") with false by reflexivity.
  cbn [app]. rewrite app_nil_r. apply length_map.
Qed.

Lemma uncapped_keywordScore (i : Intent) (instruction : Text.t) :
  uncapped i (extractEntities (extractKeywords instruction) instruction)
    (extractKeywords instruction)
  = keywordScore i (extractKeywords instruction).
Proof.
  unfold uncapped, keywordScore, ghlDensity.
  now rewrite keyword_entities_length, ghlObjectCount_extract.
Qed.

(** X10: the confidence is a function of the intent and of three counts
    over the keyword sequence: with b = 0.1 for Unknown and 0.6 otherwise,
    g the number of keywords that are CRM objects, t the number that are
    time words and k the number of keywords, it is
    b + 0.1 (g + t) + 0.2 g / k (the last term absent for k = 0), cut
    at 1. *)
Theorem confidence_closed_form (instruction : Text.t) (context : CommandContext) :
  (keywordScore (intent (interpretCommand instruction context))
     (extractKeywords instruction) <= 1 ->
   confidence (interpretCommand instruction context)
   == keywordScore (intent (interpretCommand instruction context))
        (extractKeywords instruction))
  /\ (1 < keywordScore (intent (interpretCommand instruction context))
            (extractKeywords instruction) ->
      confidence (interpretCommand instruction context) == 1).
Proof.
  unfold interpretCommand. cbn [intent confidence].
  rewrite <- uncapped_keywordScore.
  destruct (calculateConfidence_cases
              (detectIntent (extractKeywords instruction) instruction)
              (extractEntities (extractKeywords instruction) instruction)
              (extractKeywords instruction)) as [[Hlt E]|[Hle E]].
  - split; [intros H; lra | intros _; exact E].
  - split; [intros _; exact E | intros H; lra].
Qed.

Lemma confidence_closed_form_witness :
  confidence (interpretCommand "update the lead tomorrow" (sampleContext 0))
  == keywordScore
       (intent (interpretCommand "update the lead tomorrow" (sampleContext 0)))
       (extractKeywords "update the lead tomorrow").
Proof.
  apply (proj1 (confidence_closed_form "update the lead tomorrow" (sampleContext 0))).
  vm_compute. discriminate.
Defined.

(** X11: the confidence is at least 0.1, and at least 0.6 when the intent
    is recognised; it is 1 as soon as a recognised intent comes with four
    entities or an Unknown one with nine. *)
Theorem confidence_floor_and_saturation
    (instruction : Text.t) (context : CommandContext) :
  0.1 <= confidence (interpretCommand instruction context)
  /\ (intent (interpretCommand instruction context) <> Unknown ->
      0.6 <= confidence (interpretCommand instruction context))
  /\ (intent (interpretCommand instruction context) <> Unknown ->
      (4 <= List.length (entities (interpretCommand instruction context)))%nat ->
      confidence (interpretCommand instruction context) == 1)
  /\ ((9 <= List.length (entities (interpretCommand instruction context)))%nat ->
      confidence (interpretCommand instruction context) == 1).
Proof.
  unfold interpretCommand. cbn [intent entities confidence].
  set (ws := extractKeywords instruction).
  set (i := detectIntent ws instruction).
  set (es := extractEntities ws instruction).
  pose proof (ghlDensity_nonneg es ws) as Hd.
  pose proof (fromInt_nat_nonneg (List.length es)) as Hn.
  unfold Float.fromInt in Hn.
  assert (Hb : 0.1 <= baseOf i) by (destruct i; cbn [baseOf]; lra).
  assert (Hb' : i <> Unknown -> 0.6 <= baseOf i)
    by (destruct i; cbn [baseOf]; intros H; try lra; now elim H).
  assert (Hlen : forall m : nat,
             (m <= List.length es)%nat ->
             inject_Z (Z.of_nat m) <= inject_Z (Z.of_nat (List.length es))).
  { intros m Hm. rewrite <- Zle_Qle. lia. }
  destruct (calculateConfidence_cases i es ws) as [[Hlt E]|[Hle E]];
    unfold uncapped in *; rewrite E.
  - repeat split; intros; try reflexivity; lra.
  - repeat split.
    + lra.
    + intros H. specialize (Hb' H). lra.
    + intros H H4. specialize (Hb' H). specialize (Hlen 4%nat H4).
      change (inject_Z (Z.of_nat 4)) with 4 in Hlen. lra.
    + intros H9. specialize (Hlen 9%nat H9).
      change (inject_Z (Z.of_nat 9)) with 9 in Hlen. lra.
Qed.

Lemma confidence_floor_and_saturation_witness :
  0.6 <= confidence (interpretCommand "create workflow campaign email form"
                       (sampleContext 0))
  /\ confidence (interpretCommand "create workflow campaign email form"
                   (sampleContext 0)) == 1.
Proof.
  pose proof (confidence_floor_and_saturation
                "create workflow campaign email form" (sampleContext 0))
    as (_ & H6 & H1 & _).
  split.
  - apply H6. vm_compute. discriminate.
  - apply H1; [vm_compute; discriminate | vm_compute; lia].
Defined.

(** X12: approval grows with the priority: an instruction that needs
    approval in one context needs it in every context of the same or a
    higher priority, and nothing of the context but its priority is
    read. *)
Theorem approval_monotone_in_priority
    (instruction : Text.t) (context context' : CommandContext) :
  (priority context <= priority context')%nat ->
  requiresApproval (interpretCommand instruction context) = true ->
  requiresApproval (interpretCommand instruction context') = true.
Proof.
  unfold interpretCommand. cbn [requiresApproval]. intros Hp.
  destruct (detectIntent (extractKeywords instruction) instruction);
    cbn [shouldRequireApproval]; trivial;
    intros H; apply Nat.leb_le in H; apply Nat.leb_le; lia.
Qed.

Lemma approval_monotone_in_priority_witness :
  requiresApproval (interpretCommand "show the contacts"
                      {| locationId := "other"; sourceMetadata := Some "x";
                         priority := 5; retryCount := 2 |}) = true.
Proof.
  apply (approval_monotone_in_priority "show the contacts" (sampleContext 3)).
  - simpl. lia.
  - reflexivity.
Defined.

(** X13: from priority 3 on, the only instructions that go through
    without approval are those classified as Create of an object other
    than workflow, campaign and automation. *)
Theorem high_priority_escape (instruction : Text.t) (context : CommandContext) :
  (3 <= priority context)%nat ->
  requiresApproval (interpretCommand instruction context) = false ->
  exists objectType,
    intent (interpretCommand instruction context) = Create objectType
    /\ ~ In objectType criticalObjects.
Proof.
  unfold interpretCommand. cbn [requiresApproval intent]. intros Hp.
  destruct (detectIntent (extractKeywords instruction) instruction) as
    [o|o i|o i|o f|t c|]; cbn [shouldRequireApproval]; try discriminate.
  - intros H. exists o. split; [reflexivity|].
    apply orb_false_iff in H. destruct H as [H H3].
    apply orb_false_iff in H. destruct H as [H1 H2].
    intros [E|[E|[E|[]]]]; subst o; discriminate.
  - intros H. apply Nat.leb_gt in H. lia.
  - intros H. apply Nat.leb_gt in H. lia.
  - intros H. apply Nat.leb_gt in H. lia.
Qed.

Lemma high_priority_escape_witness :
  exists objectType,
    intent (interpretCommand "add a contact for the campaign" (sampleContext 4))
    = Create objectType
    /\ ~ In objectType criticalObjects.
Proof.
  apply (high_priority_escape "add a contact for the campaign" (sampleContext 4)).
  - simpl. lia.
  - reflexivity.
Defined.

End Scoring.


(** ** More on the channel formatters *)

Module Channels.
Import Types GHLIntegration Props BaseFacts Formatting.

Local Arguments Text.equal : simpl never.

(** X14: a webhook payload is accepted exactly when it contains "contact"
    or "opportunity"; an accepted payload is kept whole as the data, is
    filed under "contact" whenever that word occurs and under
    "opportunity" otherwise, and its action is one of created, updated,
    deleted, unknown; every other payload gets the one error text. *)
Theorem parseWebhookPayload_outcome (payload : Text.t) :
  (Text.contains payload "contact" || Text.contains payload "opportunity" = true ->
   exists parsed,
     parseWebhookPayload payload = Result.ok parsed
     /\ data parsed = payload
     /\ webhookObjectType parsed
        = (if Text.contains payload "contact" then "contact" else "opportunity")
     /\ In (action parsed) ["created"; "updated"; "deleted"; "unknown"])
  /\ (Text.contains payload "contact" || Text.contains payload "opportunity" = false ->
      parseWebhookPayload payload = Result.err "Unknown webhook payload format").
Proof.
  assert (Ha : In (extractAction payload) ["created"; "updated"; "deleted"; "unknown"]).
  { unfold extractAction.
    destruct (Text.contains payload "created"); [cbn [In]; tauto|].
    destruct (Text.contains payload "updated"); [cbn [In]; tauto|].
    destruct (Text.contains payload "deleted"); cbn [In]; tauto. }
  unfold parseWebhookPayload.
  destruct (Text.contains payload "contact");
    [|destruct (Text.contains payload "opportunity")];
    cbn [orb]; split; try discriminate; intros _; try reflexivity;
    eexists; repeat split; exact Ha.
Qed.

Lemma parseWebhookPayload_outcome_witness :
  (exists parsed,
      parseWebhookPayload "opportunity 42 was updated" = Result.ok parsed
      /\ data parsed = "opportunity 42 was updated"
      /\ webhookObjectType parsed
         = (if Text.contains "opportunity 42 was updated" "contact"
            then "contact" else "opportunity")
      /\ In (action parsed) ["created"; "updated"; "deleted"; "unknown"])
  /\ parseWebhookPayload "invoice paid" = Result.err "Unknown webhook payload format".
Proof.
  split.
  - apply (proj1 (parseWebhookPayload_outcome "opportunity 42 was updated")).
    reflexivity.
  - apply (proj2 (parseWebhookPayload_outcome "invoice paid")). reflexivity.
Defined.

(** X15: the voice response names one action for each executed action, in
    the same order, each from a fixed list of five names; an action of a
    type that is not known by name is reported as "action_completed". *)
Theorem voice_actions_one_per_action (result : ExecutionResult) :
  List.length (voiceActions (formatVoiceResponse result))
  = List.length (actions result)
  /\ Forall (fun name => In name voiceActionNames)
       (voiceActions (formatVoiceResponse result))
  /\ (forall n a,
         nth_error (actions result) n = Some a ->
         ~ In (actionType a)
             ["create_contact"; "send_email"; "schedule_appointment";
              "update_opportunity"] ->
         nth_error (voiceActions (formatVoiceResponse result)) n
         = Some "action_completed").
Proof.
  unfold formatVoiceResponse. cbn [voiceActions]. unfold generateVoiceActions.
  split; [apply length_map|]. split.
  - apply Forall_forall. intros name H. apply in_map_iff in H.
    destruct H as [a [H _]]. subst name. unfold voiceActionNames.
    repeat match goal with
           | |- context [if ?b then _ else _] => destruct b
           end; cbn [In]; tauto.
  - intros n a Hn Hty. rewrite nth_error_map, Hn. cbn [option_map].
    repeat match goal with
           | |- context [if Text.equal ?x ?y then _ else _] =>
               destruct (Text.equal x y) eqn:?E
           end; try reflexivity;
      match goal with
      | H : Text.equal _ _ = true |- _ =>
          apply equal_true in H; elim Hty; rewrite H; cbn [In]; tauto
      end.
Qed.

(** X16: the voice response carries the transfer number "+1234567890"
    exactly when one of the executed actions has the type
    "transfer_to_human", whatever its place in the list, and no number
    otherwise. *)
Theorem transfer_number_iff (result : ExecutionResult) :
  (transferNumber (formatVoiceResponse result) = Some "+1234567890"
   <-> In "transfer_to_human" (map actionType (actions result)))
  /\ (transferNumber (formatVoiceResponse result) = None
      <-> ~ In "transfer_to_human" (map actionType (actions result))).
Proof.
  unfold formatVoiceResponse. cbn [transferNumber]. unfold getTransferNumber.
  assert (H : Array.found (actions result)
                (fun action => Text.equal (actionType action) "transfer_to_human")
              = true
              <-> In "transfer_to_human" (map actionType (actions result))).
  { rewrite found_true, in_map_iff. split; intros [a [H1 H2]]; exists a.
    - apply equal_true in H2. now split.
    - split; [assumption | now apply equal_true]. }
  destruct (Array.found (actions result) _); intuition discriminate.
Qed.

(** X17: the quick replies are never empty and each is shorter than 30
    characters: they are the next steps shorter than 30 characters, in
    order, when there is one, and the three default replies otherwise;
    defaults and next steps are never mixed. *)
Theorem quick_replies_short_and_present (steps : list Text.t) :
  generateQuickReplies steps <> []
  /\ Forall (fun reply => Text.size reply < 30) (generateQuickReplies steps)
  /\ ((exists step, In step steps /\ Text.size step < 30) ->
      generateQuickReplies steps
      = filter (fun step => (Text.size step <? 30)%nat) steps)
  /\ ((forall step, In step steps -> 30 <= Text.size step) ->
      generateQuickReplies steps = defaultReplies).
Proof.
  unfold generateQuickReplies. cbv zeta.
  destruct (filter (fun step => (Text.size step <? 30)%nat) steps)
    as [|r rs] eqn:E; cbn [List.length Nat.eqb app].
  - repeat split.
    + discriminate.
    + repeat (apply Forall_cons; [vm_compute; lia|]). apply Forall_nil.
    + intros [step [Hin Hs]].
      assert (H : In step (filter (fun step => (Text.size step <? 30)%nat) steps))
        by (apply filter_In; split; [assumption | now apply Nat.ltb_lt]).
      rewrite E in H. destruct H.
  - repeat split.
    + discriminate.
    + rewrite <- E. apply Forall_forall. intros x Hx. apply filter_In in Hx.
      now apply Nat.ltb_lt.
    + intros H. assert (Hr : In r (r :: rs)) by now left.
      rewrite <- E in Hr. apply filter_In in Hr. destruct Hr as [Hin Hs].
      apply Nat.ltb_lt in Hs. specialize (H r Hin). lia.
Qed.

Lemma prefix_append (p a b : Text.t) :
  String.prefix p a = true -> String.prefix p (a ++ b) = true.
Proof.
  revert a. induction p as [|c p IH]; intros a; [intros _; now destruct (a ++ b)|].
  destruct a as [|d a]; [discriminate|].
  cbn [String.prefix append]. destruct (ascii_dec c d); [apply IH | discriminate].
Qed.

Lemma contains_append_l (a b p : Text.t) :
  Text.contains a p = true -> Text.contains (a ++ b) p = true.
Proof.
  induction a as [|d a IH].
  - cbn [Text.contains]. rewrite orb_false_r. intros H.
    destruct p; [now destruct b | discriminate].
  - cbn [Text.contains append]. intros H. apply orb_true_iff in H.
    destruct H as [H|H].
    + apply (prefix_append p (String d a) b) in H. cbn [append] in H.
      now rewrite H.
    + rewrite (IH H). apply orb_true_r.
Qed.

Lemma contains_append_r (a b p : Text.t) :
  Text.contains b p = true -> Text.contains (a ++ b) p = true.
Proof.
  intros H. induction a as [|d a IH]; [exact H|].
  cbn [Text.contains append]. rewrite IH. apply orb_true_r.
Qed.

(** Every joined text occurs in the join. *)
Lemma contains_join (sep : Text.t) (ts : list Text.t) (x : Text.t) :
  In x ts -> Text.contains (Text.join sep ts) x = true.
Proof.
  unfold Text.join. induction ts as [|y ts IH]; [intros []|].
  intros [H|H].
  - subst y. destruct ts as [|z ts]; cbn [String.concat].
    + apply contains_refl.
    + apply contains_append_l, contains_refl.
  - destruct ts as [|z ts]; [destruct H|]. cbn [String.concat].
    apply contains_append_r, contains_append_r. now apply IH.
Qed.

(** X18: a chat response never closes the chat and has no attachment;
    its message ends with the reason when the result has failed and
    holds every insight when it is completed. *)
Theorem chat_response_content (result : ExecutionResult) :
  shouldClose (formatChatResponse result) = false
  /\ attachments (formatChatResponse result) = []
  /\ (forall reason,
         status result = Failed reason ->
         message (formatChatResponse result)
         = "❌ Oops! Something went wrong: " ++ reason
         /\ Text.contains (message (formatChatResponse result)) reason = true)
  /\ (status result = Completed ->
      forall insight,
        In insight (insights result) ->
        Text.contains (message (formatChatResponse result)) insight = true).
Proof.
  unfold formatChatResponse. cbn [shouldClose attachments message].
  unfold generateChatMessage. repeat split.
  - rewrite H. reflexivity.
  - rewrite H. apply (contains_suffix "❌ Oops! Something went wrong: " reason).
  - intros H insight Hin. rewrite H.
    repeat apply contains_append_r. now apply contains_join.
Qed.

(** X19: the channels agree on failure: the voice response ends the call
    exactly when the workflow decision is "stop", which is exactly when
    the status is Failed, while the chat stays open even then; and the
    workflow decision is "continue" exactly when the status is
    Completed, the only case with workflow variables. *)
Theorem channels_agree_on_status (result : ExecutionResult) :
  (shouldEndCall (formatVoiceResponse result) = true
   <-> decision (generateWorkflowDecision result) = "stop")
  /\ (decision (generateWorkflowDecision result) = "stop"
      <-> exists reason, status result = Failed reason)
  /\ (decision (generateWorkflowDecision result) = "continue"
      <-> status result = Completed)
  /\ (variables (generateWorkflowDecision result) <> []
      <-> status result = Completed)
  /\ shouldClose (formatChatResponse result) = false.
Proof.
  unfold formatVoiceResponse, shouldEndVoiceCall, generateWorkflowDecision,
    generateWorkflowVariables, formatChatResponse.
  cbn [shouldEndCall shouldClose].
  destruct (status result) as [| | |reason|warnings];
    cbn [decision variables]; repeat split;
    try discriminate; try reflexivity; try (intros [r Hr]; discriminate);
    try (intros H; now elim H); eauto.
Qed.

(** X20: the text of a status names its variant and nothing else: two
    statuses have the same text exactly when they are of the same
    variant, whatever the reason or the warnings. *)
Theorem status_text_names_variant (a b : ExecutionStatus) :
  formatExecutionStatus a = formatExecutionStatus b <-> sameVariant a b.
Proof.
  destruct a, b; cbn [formatExecutionStatus sameVariant]; split;
    trivial; try discriminate; try contradiction.
Qed.

End Channels.


(** ** The actor: stored commands and results *)

Module Actor.
Import Types AgentAdam Props BaseFacts.

Local Arguments Text.equal : simpl never.

Section Maps.

Context {V : Type}.
Implicit Types (m : HashMap.t V) (k : Text.t) (v : V).

Lemma equal_refl k : Text.equal k k = true.
Proof. now apply equal_true. Qed.

Lemma equal_false k k' : k <> k' -> Text.equal k k' = false.
Proof.
  intros H. destruct (Text.equal k k') eqn:E; [|reflexivity].
  apply equal_true in E. contradiction.
Qed.

Lemma get_none m k : HashMap.get m k = None <-> ~ In k (map fst m).
Proof.
  unfold HashMap.get.
  destruct (find (fun kv => Text.equal (fst kv) k) m) as [kv|] eqn:E.
  - split; [discriminate|]. intros H. elim H. apply find_some in E.
    destruct E as [Hin Heq]. apply equal_true in Heq. subst k.
    now apply in_map.
  - split; [|reflexivity]. intros _ Hin. apply in_map_iff in Hin.
    destruct Hin as [kv [Hk Hin]]. pose proof (find_none _ _ E kv Hin) as Hf.
    cbn beta in Hf. rewrite Hk, equal_refl in Hf. discriminate.
Qed.

Lemma get_delete_other m k k' :
  k' <> k -> HashMap.get (HashMap.delete m k) k' = HashMap.get m k'.
Proof.
  intros Hne. unfold HashMap.get, HashMap.delete.
  induction m as [|[k1 v1] m IH]; [reflexivity|].
  cbn [filter find fst]. destruct (Text.equal k1 k) eqn:E1; cbn [negb].
  - apply equal_true in E1. subst k1.
    rewrite (equal_false k k') by now apply not_eq_sym. exact IH.
  - cbn [find fst]. destruct (Text.equal k1 k'); [reflexivity | exact IH].
Qed.

Lemma get_put_same m k v : HashMap.get (HashMap.put m k v) k = Some v.
Proof.
  unfold HashMap.get, HashMap.put. cbn [find fst]. now rewrite equal_refl.
Qed.

Lemma get_put_other m k v k' :
  k' <> k -> HashMap.get (HashMap.put m k v) k' = HashMap.get m k'.
Proof.
  intros Hne. unfold HashMap.put.
  change (HashMap.get ((k, v) :: HashMap.delete m k) k')
    with (match (if Text.equal k k' then Some (k, v)
                 else find (fun kv => Text.equal (fst kv) k') (HashMap.delete m k))
          with Some kv => Some (snd kv) | None => None end).
  rewrite (equal_false k k') by now apply not_eq_sym.
  now apply get_delete_other.
Qed.

Lemma keys_delete m k k' :
  In k' (map fst (HashMap.delete m k)) <-> In k' (map fst m) /\ k' <> k.
Proof.
  unfold HashMap.delete. rewrite 2 in_map_iff. split.
  - intros [kv [Hk Hin]]. apply filter_In in Hin. destruct Hin as [Hin Hf].
    split; [now exists kv|]. intros E. subst. rewrite equal_refl in Hf.
    discriminate.
  - intros [[kv [Hk Hin]] Hne]. exists kv. split; [assumption|].
    apply filter_In. split; [assumption|]. subst k'.
    now rewrite equal_false.
Qed.

Lemma delete_one_entry m k : oneEntryPerKey m -> oneEntryPerKey (HashMap.delete m k).
Proof.
  unfold oneEntryPerKey, HashMap.delete.
  induction m as [|[k1 v1] m IH]; [trivial|].
  cbn [map fst filter]. intros H. inversion H as [|? ? Hnin Hm]. subst.
  destruct (Text.equal k1 k); cbn [negb]; [now apply IH|].
  cbn [map fst]. constructor; [|now apply IH].
  intros Hin. apply Hnin. apply (keys_delete m k k1) in Hin. tauto.
Qed.

Lemma put_one_entry m k v : oneEntryPerKey m -> oneEntryPerKey (HashMap.put m k v).
Proof.
  intros H. unfold HashMap.put, oneEntryPerKey. cbn [map fst]. constructor.
  - intros Hin. apply keys_delete in Hin. tauto.
  - now apply delete_one_entry.
Qed.

Lemma delete_absent m k : HashMap.get m k = None -> HashMap.delete m k = m.
Proof.
  intros H. apply get_none in H. unfold HashMap.delete.
  induction m as [|[k1 v1] m IH]; [reflexivity|].
  cbn [filter fst]. cbn [map fst In] in H.
  rewrite (equal_false k1 k) by tauto. cbn [negb]. f_equal. apply IH. tauto.
Qed.

Lemma size_delete_present m k :
  oneEntryPerKey m -> HashMap.get m k <> None ->
  S (HashMap.size (HashMap.delete m k)) = HashMap.size m.
Proof.
  unfold oneEntryPerKey, HashMap.size.
  induction m as [|[k1 v1] m IH]; intros Hm Hk.
  - now elim Hk.
  - inversion Hm as [|? ? Hnin Hm']. subst.
    unfold HashMap.delete. cbn [filter fst].
    destruct (Text.equal k1 k) eqn:E; cbn [negb List.length].
    + apply equal_true in E. subst k1. f_equal.
      fold (HashMap.delete m k). rewrite delete_absent; [reflexivity|].
      now apply get_none.
    + f_equal. fold (HashMap.delete m k). apply IH; [assumption|].
      intros Hn. apply Hk. unfold HashMap.get. cbn [find fst]. rewrite E.
      exact Hn.
Qed.

(** [put] adds an entry for a new key and replaces the entry of a known one. *)
Lemma size_put m k v :
  oneEntryPerKey m ->
  HashMap.size (HashMap.put m k v)
  = match HashMap.get m k with
    | Some _ => HashMap.size m
    | None => S (HashMap.size m)
    end.
Proof.
  intros Hm. unfold HashMap.put.
  change (HashMap.size ((k, v) :: HashMap.delete m k))
    with (S (HashMap.size (HashMap.delete m k))).
  destruct (HashMap.get m k) eqn:E.
  - apply size_delete_present; [assumption | congruence].
  - now rewrite delete_absent.
Qed.

Lemma fold_put_get (pairs : list (Text.t * V)) m k :
  NoDup (map fst pairs) ->
  HashMap.get
    (fold_left (fun m kv => HashMap.put m (fst kv) (snd kv)) pairs m) k
  = match HashMap.get pairs k with
    | Some v => Some v
    | None => HashMap.get m k
    end.
Proof.
  revert m. induction pairs as [|[k1 v1] pairs IH]; intros m Hnd; [reflexivity|].
  cbn [map fst] in Hnd. inversion Hnd as [|? ? Hnin Hnd']. subst.
  cbn [fold_left fst snd]. rewrite IH by assumption.
  unfold HashMap.get at 3. cbn [find fst].
  destruct (Text.equal k1 k) eqn:E.
  - apply equal_true in E. subst k1.
    rewrite (proj2 (get_none pairs k) Hnin). cbn [snd]. apply get_put_same.
  - fold (HashMap.get pairs k). destruct (HashMap.get pairs k); [reflexivity|].
    apply get_put_other. intros E'. subst. rewrite equal_refl in E. discriminate.
Qed.

Lemma fold_put_one_entry (pairs : list (Text.t * V)) m :
  oneEntryPerKey m ->
  oneEntryPerKey (fold_left (fun m kv => HashMap.put m (fst kv) (snd kv)) pairs m).
Proof.
  revert m. induction pairs as [|[k1 v1] pairs IH]; intros m Hm; [exact Hm|].
  cbn [fold_left]. apply IH. now apply put_one_entry.
Qed.

Lemma fold_put_size (pairs : list (Text.t * V)) m :
  NoDup (map fst pairs) ->
  oneEntryPerKey m ->
  (forall k, In k (map fst pairs) -> HashMap.get m k = None) ->
  HashMap.size (fold_left (fun m kv => HashMap.put m (fst kv) (snd kv)) pairs m)
  = List.length pairs + HashMap.size m.
Proof.
  revert m. induction pairs as [|[k1 v1] pairs IH]; intros m Hnd Hm Hnew;
    [reflexivity|].
  cbn [map fst] in Hnd. inversion Hnd as [|? ? Hnin Hnd']. subst.
  cbn [fold_left fst snd]. rewrite IH.
  - rewrite size_put by assumption. rewrite (Hnew k1) by now left.
    cbn [List.length]. lia.
  - assumption.
  - now apply put_one_entry.
  - intros k Hk. rewrite get_put_other.
    + apply Hnew. now right.
    + intros E. subst. contradiction.
Qed.

(** Rebuilding a map from its entries gives the same map back. *)
Lemma fromIter_entries m :
  oneEntryPerKey m ->
  (forall k, HashMap.get (HashMap.fromIter (HashMap.entries m)) k = HashMap.get m k)
  /\ HashMap.size (HashMap.fromIter (HashMap.entries m)) = HashMap.size m
  /\ oneEntryPerKey (HashMap.fromIter (HashMap.entries m)).
Proof.
  intros Hm. unfold HashMap.fromIter, HashMap.entries. repeat split.
  - intros k. rewrite fold_put_get by exact Hm.
    now destruct (HashMap.get m k).
  - rewrite fold_put_size; trivial.
    + unfold HashMap.size, HashMap.empty. cbn [List.length]. lia.
    + constructor.
  - apply fold_put_one_entry. constructor.
Qed.

End Maps.

(** X21: after [processCommand] the result of the command can be looked
    up under the command's id: it is the returned result, Completed and
    bearing that id; the results stored under other ids are untouched,
    and the call never returns an error. *)
Theorem processCommand_then_lookup (cmd : Command) (s : State) :
  fst (processCommand cmd s) = Result.ok (processed (id cmd))
  /\ getExecutionResult (id cmd) (snd (processCommand cmd s))
     = Some (processed (id cmd))
  /\ HashMap.get (commands (snd (processCommand cmd s))) (id cmd) = Some cmd
  /\ (forall other,
         other <> id cmd ->
         getExecutionResult other (snd (processCommand cmd s))
         = getExecutionResult other s).
Proof.
  unfold processCommand, getExecutionResult. cbn [fst snd results commands].
  repeat split.
  - apply get_put_same.
  - apply get_put_same.
  - intros other H. now apply get_put_other.
Qed.

(** The state stays consistent: the actor as installed holds one entry
    for a key in each of its maps, and command processing and the two
    upgrade hooks keep it so. *)
Lemma consistent_preserved :
  consistent init
  /\ (forall cmd s, consistent s -> consistent (snd (processCommand cmd s)))
  /\ (forall s, consistent s -> consistent (preupgrade s))
  /\ (forall s, consistent s -> consistent (postupgrade (preupgrade s))).
Proof.
  unfold consistent. split; [|split; [|split]].
  - cbn [init commands results preferences]. repeat split; constructor.
  - intros cmd s (Hc & Hr & Hp). unfold processCommand.
    cbn [snd commands results preferences].
    repeat split; [now apply put_one_entry | now apply put_one_entry | exact Hp].
  - intros s H. exact H.
  - intros s (Hc & Hr & Hp). unfold postupgrade, preupgrade.
    cbn [commands results preferences commandHistory executionResults
         userPreferences].
    repeat split; now apply fromIter_entries.
Qed.

(** X22: the command counter counts ids, not calls: processing a command
    whose id is new adds one to [getTotalCommands], processing a command
    whose id is already stored replaces the stored command and leaves the
    counter as it is. *)
Theorem total_commands_counts_ids (cmd : Command) (s : State) :
  consistent s ->
  (HashMap.get (commands s) (id cmd) = None ->
   getTotalCommands (snd (processCommand cmd s)) = S (getTotalCommands s))
  /\ (HashMap.get (commands s) (id cmd) <> None ->
      getTotalCommands (snd (processCommand cmd s)) = getTotalCommands s).
Proof.
  intros (Hc & _ & _). unfold getTotalCommands, processCommand.
  cbn [snd commands]. rewrite size_put by exact Hc.
  destruct (HashMap.get (commands s) (id cmd)); split; intros H;
    try reflexivity; try discriminate. now elim H.
Qed.

Lemma total_commands_counts_ids_witness :
  getTotalCommands (snd (processCommand (sampleCommand "a") init)) = 1
  /\ getTotalCommands
       (snd (processCommand (sampleCommand "a")
               (snd (processCommand (sampleCommand "a") init)))) = 1.
Proof.
  split.
  - apply (proj1 (total_commands_counts_ids (sampleCommand "a") init
                    (proj1 consistent_preserved))).
    reflexivity.
  - rewrite (proj2 (total_commands_counts_ids (sampleCommand "a")
                      (snd (processCommand (sampleCommand "a") init))
                      (proj1 (proj2 consistent_preserved) _ _
                         (proj1 consistent_preserved)))).
    + reflexivity.
    + discriminate.
Defined.

(** X23: an upgrade loses nothing: after [preupgrade] and [postupgrade]
    every command, result and preference is found under its key as
    before, the command counter is unchanged, and the stable arrays are
    empty again. *)
Theorem upgrade_round_trip (s : State) :
  consistent s ->
  (forall k, HashMap.get (commands (postupgrade (preupgrade s))) k
             = HashMap.get (commands s) k)
  /\ (forall k, getExecutionResult k (postupgrade (preupgrade s))
                = getExecutionResult k s)
  /\ (forall k, HashMap.get (preferences (postupgrade (preupgrade s))) k
                = HashMap.get (preferences s) k)
  /\ getTotalCommands (postupgrade (preupgrade s)) = getTotalCommands s
  /\ commandHistory (postupgrade (preupgrade s)) = []
  /\ executionResults (postupgrade (preupgrade s)) = []
  /\ userPreferences (postupgrade (preupgrade s)) = [].
Proof.
  intros (Hc & Hr & Hp).
  unfold getExecutionResult, getTotalCommands, postupgrade, preupgrade.
  cbn [commands results preferences commandHistory executionResults
       userPreferences].
  destruct (fromIter_entries (commands s) Hc) as (Hc1 & Hc2 & _).
  destruct (fromIter_entries (results s) Hr) as (Hr1 & _ & _).
  destruct (fromIter_entries (preferences s) Hp) as (Hp1 & _ & _).
  repeat split; trivial.
Qed.

Lemma upgrade_round_trip_witness :
  getExecutionResult "a"
    (postupgrade (preupgrade (snd (processCommand (sampleCommand "a") init))))
  = getExecutionResult "a" (snd (processCommand (sampleCommand "a") init)).
Proof.
  apply (upgrade_round_trip (snd (processCommand (sampleCommand "a") init))).
  apply (proj1 (proj2 consistent_preserved)). apply (proj1 consistent_preserved).
Defined.

Lemma get_some_in {V} (m : HashMap.t V) (k : Text.t) (v : V) :
  oneEntryPerKey m -> In (k, v) m -> HashMap.get m k = Some v.
Proof.
  unfold oneEntryPerKey, HashMap.get.
  induction m as [|[k1 v1] m IH]; intros Hm Hin; [destruct Hin|].
  cbn [map fst] in Hm. inversion Hm as [|? ? Hnin Hm']. subst.
  cbn [find fst]. destruct Hin as [E|Hin].
  - inversion E. subst. now rewrite equal_refl.
  - destruct (Text.equal k1 k) eqn:E.
    + apply equal_true in E. subst k1. elim Hnin.
      apply in_map_iff. now exists (k, v).
    + now apply IH.
Qed.

(** X24: [getCommandHistory limit] returns as many commands as are
    stored, up to the limit: none for the limit 0, all of them for a
    limit at or above [getTotalCommands]; and every command it returns is
    a stored command, found under some key. *)
Theorem command_history_bounded (limit : nat) (s : State) :
  consistent s ->
  List.length (getCommandHistory limit s) = Nat.min limit (getTotalCommands s)
  /\ (forall cmd,
         In cmd (getCommandHistory limit s) ->
         exists k, HashMap.get (commands s) k = Some cmd)
  /\ (getTotalCommands s <= limit ->
      forall k cmd,
        HashMap.get (commands s) k = Some cmd ->
        In cmd (getCommandHistory limit s)).
Proof.
  intros (Hc & _ & _). unfold getCommandHistory, getTotalCommands,
    HashMap.entries, HashMap.size. repeat split.
  - rewrite length_map. apply length_firstn.
  - intros cmd Hin. apply in_map_iff in Hin. destruct Hin as [[k c] [E Hin]].
    cbn [snd] in E. subst c. exists k. apply get_some_in; [exact Hc|].
    rewrite <- (firstn_skipn limit (commands s)). apply in_or_app. now left.
  - intros Hl k cmd Hk. rewrite firstn_all2 by exact Hl.
    unfold HashMap.get in Hk.
    destruct (find (fun kv => Text.equal (fst kv) k) (commands s))
      as [kv|] eqn:E; [|discriminate].
    inversion Hk. subst cmd. apply in_map. now apply find_some in E.
Qed.

Lemma command_history_bounded_witness :
  List.length (getCommandHistory 5 (snd (processCommand (sampleCommand "a") init)))
  = Nat.min 5 (getTotalCommands (snd (processCommand (sampleCommand "a") init))).
Proof.
  apply (command_history_bounded 5 (snd (processCommand (sampleCommand "a") init))).
  apply (proj1 (proj2 consistent_preserved)). apply (proj1 consistent_preserved).
Defined.

(** X25: the four entry points never return an error: each stores one
    command, under the id made of its first argument, an underscore and
    the time, with the priority of its channel (1 for a webhook, 2 for
    voice and chat, 3 for the admin interface) and the text it was given
    as the instruction, and answers with its fixed success response. *)
Theorem entry_points_never_fail
    (a b text locationId : Text.t) (now now' : Z) (s : State) :
  let key := a ++ "_" ++ Int'.toText now in
  let stored (p : nat) (src : CommandSource) (meta : Text.t) :=
    {| id := key; source := src; instruction := text;
       context := {| Types.locationId := locationId; sourceMetadata := Some meta;
                     priority := p; retryCount := 0 |};
       commandTimestamp := now' |} in
  (fst (handleWebhook a b text locationId now now' s)
   = Result.ok "Webhook processed successfully"
   /\ HashMap.get (commands (snd (handleWebhook a b text locationId now now' s))) key
      = Some (stored 1 (GHLWebhook a b) b))
  /\ (fst (processVoiceCommand a b text locationId now now' s)
      = Result.ok {| spokenText := "I've processed your request successfully.";
                     voiceActions := ["confirm_action"];
                     shouldEndCall := false;
                     transferNumber := None |}
      /\ HashMap.get
           (commands (snd (processVoiceCommand a b text locationId now now' s))) key
         = Some (stored 2 (GHLVoiceAgent a b) b))
  /\ (fst (processChatCommand a b text locationId now now' s)
      = Result.ok {| message := "I've processed your request. Here's what I found.";
                     quickReplies := ["Got it"; "Tell me more"; "What's next?"];
                     attachments := [];
                     shouldClose := false |}
      /\ HashMap.get
           (commands (snd (processChatCommand a b text locationId now now' s))) key
         = Some (stored 2 (GHLChatAgent a b) b))
  /\ (fst (processAdminCommand a locationId text now now' s)
      = Result.ok {| summary := "Command executed successfully";
                     details := processed key;
                     recommendedActions := ["Review results"; "Monitor progress"];
                     alerts := [] |}
      /\ HashMap.get
           (commands (snd (processAdminCommand a locationId text now now' s))) key
         = Some (stored 3 (AdminInterface a locationId) a)).
Proof.
  intros key stored.
  unfold handleWebhook, processVoiceCommand, processChatCommand,
    processAdminCommand, processCommand.
  cbn [fst snd commands id].
  repeat split; apply get_put_same.
Qed.

End Actor.


(** ** The demo service: the history of the last ten commands *)

Module Demo.
Import DemoICPService Props.

Lemma firstn_cons_firstn {A} (n : nat) (x : A) (l : list A) :
  firstn (S n) (x :: firstn (S n) l) = firstn (S n) (x :: l).
Proof.
  rewrite 2 firstn_cons. f_equal. rewrite firstn_firstn. f_equal. lia.
Qed.

(** Dropping the last element once the list is longer than ten keeps the
    first ten. *)
Lemma cap_is_firstn {A} (x : A) (l : list A) :
  List.length l <= 10 ->
  (if (10 <? List.length (x :: l))%nat then removelast (x :: l) else x :: l)
  = firstn 10 (x :: l).
Proof.
  intros H. destruct (10 <? List.length (x :: l))%nat eqn:E.
  - apply Nat.ltb_lt in E. rewrite removelast_firstn_len.
    f_equal. cbn [List.length] in *. lia.
  - apply Nat.ltb_ge in E. symmetry. now apply firstn_all2.
Qed.

Section Run.

Variables Context Response : Type.
Variable generate : Text.t -> Response.

Lemma run_app (calls calls' : list (DemoCall Context)) (s : Service) :
  demoRun generate (calls ++ calls') s
  = demoRun generate calls' (demoRun generate calls s).
Proof. apply fold_left_app. Qed.

Lemma run_history (calls : list (DemoCall Context)) :
  commandHistory (demoRun generate calls create)
  = firstn 10 (rev (map demoCommand calls))
  /\ totalCommands (demoRun generate calls create) = List.length calls.
Proof.
  induction calls as [|call calls IH] using rev_ind; [now split|].
  destruct IH as [Hh Ht]. rewrite run_app.
  destruct call as [[[instruction context] now] now'].
  cbn [demoRun fold_left]. unfold processCommand.
  cbn [snd commandHistory totalCommands].
  fold (demoRun generate calls create). rewrite Hh, Ht. split.
  - rewrite cap_is_firstn by apply firstn_le_length.
    rewrite map_app, rev_app_distr. cbn [map rev app demoCommand].
    apply firstn_cons_firstn.
  - rewrite length_app. cbn [List.length]. lia.
Qed.

(** X26: the demo service keeps the last ten commands, newest first:
    after any series of calls of [processCommand] on a new service the
    history is the first ten of the commands made so far, taken from the
    latest backwards, while the counter counts every call. *)
Theorem demo_history_last_ten (calls : list (DemoCall Context)) :
  commandHistory (demoRun generate calls create)
  = firstn 10 (rev (map demoCommand calls))
  /\ List.length (commandHistory (demoRun generate calls create))
     = Nat.min 10 (List.length calls)
  /\ totalCommands (demoRun generate calls create) = List.length calls.
Proof.
  destruct (run_history calls) as [Hh Ht]. repeat split; trivial.
  rewrite Hh, length_firstn, length_rev, length_map. reflexivity.
Qed.

(** X27: [getHistory] returns the newest commands first and never more
    than ten of them, whatever the limit asked for: as many as the limit,
    the number of calls and ten allow. *)
Theorem demo_getHistory_bounded (limit : nat) (calls : list (DemoCall Context)) :
  getHistory limit (demoRun generate calls create)
  = firstn (Nat.min limit 10) (rev (map demoCommand calls))
  /\ List.length (getHistory limit (demoRun generate calls create))
     = Nat.min limit (Nat.min 10 (List.length calls)).
Proof.
  unfold getHistory. destruct (run_history calls) as [Hh _]. rewrite Hh.
  split.
  - apply firstn_firstn.
  - rewrite 2 length_firstn, length_rev, length_map. reflexivity.
Qed.

End Run.

End Demo.
